(** * DictObject: a dict with attribute-style access

    A shallow embedding of [src/__init__.py] (class [DictObject]) and the
    properties of its item, attribute and merge operations.

    Conventions of the embedding.
    - A Python string is a [string] whose characters are the code
      points 0 to 255 (ASCII and Latin-1); on them the pattern [[\W]+]
      and [str.isdigit] are the Unicode-aware classes of Python 3.
    - Keys are the hashable scalars [str], [int], [bool] and [None];
      equality of keys is Python's [==], for which [1 == True] and
      [0 == False].
    - The conversion [str] of an integer is total: the interpreter's
      configurable limit on the digits of a converted integer (4300 by
      default, beyond which [str] raises [ValueError]) is not
      modelled.
    - A [dict] is an association list in insertion order.
    - Methods that mutate [self] or print run in a state-and-exception
      monad over the object and the standard output, so that the state
      left behind by a raised exception is part of the model. *)

From Stdlib Require Import ZArith List String Ascii Bool Lia.
From Stdlib Require Import DecimalString DecimalZ FinFun.
Import ListNotations.
Set Warnings "-register-all".
Open Scope string_scope.

(* ================================================================== *)
(** ** Python values *)

(** Hashable scalars, used as dictionary keys. *)
Inductive key : Type :=
| KStr (s : string)
| KInt (z : Z)
| KBool (b : bool)
| KNone.

(** Values stored in a dictionary.  [VObj] is a [DictObject] instance:
    its items and its [_attribute_to_key_map]. *)
Inductive value : Type :=
| VNone
| VBool (b : bool)
| VInt (z : Z)
| VStr (s : string)
| VList (xs : list value)
| VTuple (xs : list value)
| VDict (items : list (key * value))
| VObj (items : list (key * value)) (amap : list (string * key)).

Inductive exn : Type :=
| TypeError
| ValueError
| IndexError
| KeyError
| AttributeError (name : string).

(** Why a run of the model stops without a Python outcome: the loop
    budget is used up, or the program stores in
    [_attribute_to_key_map] something that is not a dict from names to
    keys. *)
Inductive halt : Type :=
| OutOfFuel
| OutsideModel.

Inductive result (A : Type) : Type :=
| Ok (a : A)
| Raise (e : exn)
| Halt (h : halt).
Arguments Ok {A} a.
Arguments Raise {A} e.
Arguments Halt {A} h.

Definition rbind {A B} (r : result A) (f : A -> result B) : result B :=
  match r with
  | Ok a => f a
  | Raise e => Raise e
  | Halt h => Halt h
  end.

Declare Scope result_scope.
Delimit Scope result_scope with result.
Notation "x <- r ;; k" := (rbind r (fun x => k))
  (at level 61, r at next level, right associativity) : result_scope.

(* ------------------------------------------------------------------ *)
(** *** [str], [==] and hashing on keys *)

(** [str] of an integer: its decimal digits, with a minus sign when it
    is negative. *)
Definition str_int (z : Z) : string := NilZero.string_of_int (Z.to_int z).

Definition str (k : key) : string :=
  match k with
  | KStr s => s
  | KInt z => str_int z
  | KBool true => "True"
  | KBool false => "False"
  | KNone => "None"
  end.

Definition isinstance_str (k : key) : bool :=
  match k with KStr _ => true | _ => false end.

(** The integer a numeric key compares as ([bool] is a subclass of
    [int]). *)
Definition as_int (k : key) : option Z :=
  match k with
  | KInt z => Some z
  | KBool true => Some 1%Z
  | KBool false => Some 0%Z
  | _ => None
  end.

(** Python's [a == b] on keys. *)
Definition py_eq (a b : key) : bool :=
  match a, b with
  | KStr s, KStr t => String.eqb s t
  | KNone, KNone => true
  | _, _ =>
      match as_int a, as_int b with
      | Some x, Some y => Z.eqb x y
      | _, _ => false
      end
  end.

Definition to_key (v : value) : option key :=
  match v with
  | VNone => Some KNone
  | VBool b => Some (KBool b)
  | VInt z => Some (KInt z)
  | VStr s => Some (KStr s)
  | _ => None
  end.

Definition of_key (k : key) : value :=
  match k with
  | KStr s => VStr s
  | KInt z => VInt z
  | KBool b => VBool b
  | KNone => VNone
  end.

(** [hash(v)] succeeds: lists and dicts (hence [DictObject]s) are
    unhashable, a tuple is hashable when its elements are. *)
Fixpoint hashable (v : value) : bool :=
  match v with
  | VNone | VBool _ | VInt _ | VStr _ => true
  | VTuple xs => forallb hashable xs
  | VList _ | VDict _ | VObj _ _ => false
  end.

(* ================================================================== *)
(** ** Identifier names: [get_attribute_name_by_key] *)

(** The digits [0] to [9]. *)
Definition ascii_digit (c : ascii) : bool :=
  let n := nat_of_ascii c in ((48 <=? n) && (n <=? 57))%nat.

(** The class [A-Za-z0-9_]. *)
Definition ascii_word (c : ascii) : bool :=
  let n := nat_of_ascii c in
  (((48 <=? n) && (n <=? 57)) || ((65 <=? n) && (n <=? 90))
   || ((97 <=? n) && (n <=? 122)) || (n =? 95))%nat.

(** [c.isdigit()]: the digits [0] to [9] and, beyond ASCII, the
    superscript digits at the code points 178, 179 and 185. *)
Definition isdigit (c : ascii) : bool :=
  let n := nat_of_ascii c in
  (ascii_digit c || (n =? 178) || (n =? 179) || (n =? 185))%nat.

(** A character matched by [\w]: a letter, a digit or the underscore;
    beyond ASCII, the letters and digits of Latin-1 (code points 170,
    178, 179, 181, 185, 186, 188 to 190, 192 to 214, 216 to 246 and
    248 to 255). *)
Definition is_word (c : ascii) : bool :=
  let n := nat_of_ascii c in
  (ascii_word c
   || (n =? 170) || (n =? 178) || (n =? 179) || (n =? 181)
   || (n =? 185) || (n =? 186) || ((188 <=? n) && (n <=? 190))
   || ((192 <=? n) && (n <=? 214)) || ((216 <=? n) && (n <=? 246))
   || ((248 <=? n) && (n <=? 255)))%nat.

(** [unallowed_in_variable_name.sub('_', s)] with
    [unallowed_in_variable_name = re.compile('[\W]+')]: scanning from
    the left, each maximal run of characters matched by [\W] becomes one
    underscore.  [in_run] tells that the previous character was part of
    a run already replaced. *)
Fixpoint sub_from (in_run : bool) (s : string) : string :=
  match s with
  | EmptyString => EmptyString
  | String c rest =>
      if is_word c then String c (sub_from false rest)
      else if in_run then sub_from true rest
      else String "_" (sub_from true rest)
  end.

Definition unallowed_sub (s : string) : string := sub_from false s.

(** The static method [get_attribute_name_by_key]: it reads its
    argument and the constant pattern only, so it is a function from
    keys to outcomes. *)
Definition get_attribute_name_by_key (k : key) : result string :=
  match str k with
  | EmptyString => Raise IndexError            (* str(key)[0] *)
  | String c _ =>
      let attribute_name :=
        if isdigit c then "int_" ++ str k
        else if negb (isinstance_str k) then "data_" ++ str k
        else str k in
      Ok (unallowed_sub attribute_name)
  end.

(* ================================================================== *)
(** ** Dictionaries *)

Section Dict.
Context {K V : Type}.
Variable eqb : K -> K -> bool.

(** [d[k]], [None] standing for [KeyError]. *)
Fixpoint dict_get (k : K) (d : list (K * V)) : option V :=
  match d with
  | [] => None
  | (k', v) :: rest => if eqb k' k then Some v else dict_get k rest
  end.

(** [k in d]. *)
Definition dict_contains (k : K) (d : list (K * V)) : bool :=
  match dict_get k d with Some _ => true | None => false end.

(** [d[k] = v]: an equal key keeps its place and its own key object,
    a new key goes last. *)
Fixpoint dict_set (k : K) (v : V) (d : list (K * V)) : list (K * V) :=
  match d with
  | [] => [(k, v)]
  | (k', v') :: rest =>
      if eqb k' k then (k', v) :: rest else (k', v') :: dict_set k v rest
  end.

(** [del d[k]] on a dictionary that has the key. *)
Fixpoint dict_del (k : K) (d : list (K * V)) : list (K * V) :=
  match d with
  | [] => []
  | (k', v') :: rest =>
      if eqb k' k then rest else (k', v') :: dict_del k rest
  end.

(** [d.update(other)]. *)
Definition dict_update (other d : list (K * V)) : list (K * V) :=
  fold_left (fun acc kv => dict_set (fst kv) (snd kv) acc) other d.
End Dict.

(** A [DictObject]: the items of the dict it is, and the instance
    attribute [_attribute_to_key_map]. *)
Record DictObject : Type := mkDictObject {
  items : list (key * value);
  _attribute_to_key_map : list (string * key)
}.

Definition obj_value (o : DictObject) : value :=
  VObj (items o) (_attribute_to_key_map o).

(* ================================================================== *)
(** ** The state-and-exception monad of methods *)

Record world : Type := mkWorld {
  self : DictObject;
  stdout : list string            (* one entry per call of [print] *)
}.

Definition M (A : Type) : Type := world -> result A * world.

Definition ret {A} (a : A) : M A := fun w => (Ok a, w).

Definition bind {A B} (m : M A) (f : A -> M B) : M B :=
  fun w =>
    match m w with
    | (Ok a, w') => f a w'
    | (Raise e, w') => (Raise e, w')
    | (Halt h, w') => (Halt h, w')
    end.

Definition lift {A} (r : result A) : M A := fun w => (r, w).

Definition raise {A} (e : exn) : M A := lift (Raise e).

Definition print (line : string) : M unit :=
  fun w => (Ok tt, mkWorld (self w) (stdout w ++ [line])).

Definition get_items : M (list (key * value)) :=
  fun w => (Ok (items (self w)), w).

Definition get_map : M (list (string * key)) :=
  fun w => (Ok (_attribute_to_key_map (self w)), w).

Definition put_items (d : list (key * value)) : M unit :=
  fun w =>
    (Ok tt, mkWorld (mkDictObject d (_attribute_to_key_map (self w))) (stdout w)).

Definition put_map (m : list (string * key)) : M unit :=
  fun w => (Ok tt, mkWorld (mkDictObject (items (self w)) m) (stdout w)).

Declare Scope M_scope.
Delimit Scope M_scope with M.
Notation "x <- m ;; k" := (bind m (fun x => k))
  (at level 61, m at next level, right associativity) : M_scope.
Notation "m ;;; k" := (bind m (fun _ => k))
  (at level 61, right associativity) : M_scope.

Section Loops.
Context {A B : Type}.

(** [for x in l: body(x)]. *)
Definition for_each (body : A -> M unit) : list A -> M unit :=
  fix loop (l : list A) : M unit :=
    match l with
    | [] => ret tt
    | x :: rest => bind (body x) (fun _ => loop rest)
    end.

(** A comprehension whose element expression may raise. *)
Definition map_result (f : A -> result B) : list A -> result (list B) :=
  fix loop (l : list A) : result (list B) :=
    match l with
    | [] => Ok []
    | x :: rest =>
        rbind (f x) (fun y => rbind (loop rest) (fun ys => Ok (y :: ys)))
    end.
End Loops.

(** [dict.__setitem__(self, k, v)], [dict.__delitem__(self, k)] and
    [dict.__getitem__(self, k)]. *)
Definition dict___setitem__ (k : key) (v : value) : M unit :=
  (d <- get_items ;; put_items (dict_set py_eq k v d))%M.

Definition dict___delitem__ (k : key) : M unit :=
  (d <- get_items ;;
   if dict_contains py_eq k d then put_items (dict_del py_eq k d)
   else raise KeyError)%M.

Definition dict___getitem__ (k : key) : M value :=
  (d <- get_items ;;
   match dict_get py_eq k d with
   | Some v => ret v
   | None => raise KeyError
   end)%M.

(* ================================================================== *)
(** ** Construction, wrapping and merging *)

Definition isinstance_dict (v : value) : bool :=
  match v with VDict _ | VObj _ _ => true | _ => false end.

Definition isinstance_list_tuple (v : value) : bool :=
  match v with VList _ | VTuple _ => true | _ => false end.

(** [list(v)] for the values that can be iterated: a dict yields its
    keys, a string its characters. *)
Definition iterate (v : value) : option (list value) :=
  match v with
  | VList xs | VTuple xs => Some xs
  | VDict d | VObj d _ => Some (map (fun kv => of_key (fst kv)) d)
  | VStr s => Some (map (fun c => VStr (String c "")) (list_ascii_of_string s))
  | _ => None
  end.

(** One element of the sequence given to [dict.__init__]: it must be
    iterable ([TypeError]), of length two ([ValueError]) and begin with
    a hashable key ([TypeError]). *)
Definition dict_init_pair (e : value) : M unit :=
  match iterate e with
  | Some [k; v] =>
      match to_key k with
      | Some k' => dict___setitem__ k' v
      | None => if hashable k then lift (Halt OutsideModel) else raise TypeError
      end
  | Some _ => raise ValueError
  | None => raise TypeError
  end.

(** [dict.__init__(self, *args, **kwargs)] with at most one positional
    argument. *)
Definition dict___init__ (arg : option value) (kwargs : list (string * value))
  : M unit :=
  (match arg with
   | None => ret tt
   | Some (VDict d) | Some (VObj d _) =>
       own <- get_items ;; put_items (dict_update py_eq d own)
   | Some x =>
       match iterate x with
       | Some es => for_each dict_init_pair es
       | None => raise TypeError
       end
   end ;;;
   for_each (fun kv => dict___setitem__ (KStr (fst kv)) (snd kv)) kwargs)%M.

Section Construction.
(** The call [DictObject(x)] on one positional argument, as the
    methods below make it on nested values. *)
Variable DictObject_new : value -> result value.

(** The element expression of the comprehension in
    [_add_to_object_part]. *)
Definition wrap_element (x : value) : result value :=
  if isinstance_dict x || isinstance_list_tuple x then DictObject_new x
  else Ok x.

(** The value that [_add_to_object_part(name, obj)] stores. *)
Definition wrap (obj : value) : result value :=
  match obj with
  | VList xs => rbind (map_result wrap_element xs) (fun ys => Ok (VList ys))
  | VTuple xs => rbind (map_result wrap_element xs) (fun ys => Ok (VTuple ys))
  | VDict _ | VObj _ _ => DictObject_new obj
  | _ => Ok obj
  end.

Definition _add_to_object_part (name : key) (obj : value) : M unit :=
  (w <- lift (wrap obj) ;; dict___setitem__ name w)%M.

Definition merge_dict (d : value) : M unit :=
  match d with
  | VDict its | VObj its _ =>
      for_each
        (fun ab =>
           (attribute_name <- lift (get_attribute_name_by_key (fst ab)) ;;
            _add_to_object_part (fst ab) (snd ab) ;;;
            m <- get_map ;;
            put_map (dict_set String.eqb attribute_name (fst ab) m))%M)
        its
  | _ => raise TypeError
  end.

Definition __init__ (args : list value) (kwargs : list (string * value))
  : M unit :=
  (match args with
   | [x] => dict___init__ (Some x) kwargs
   | _ => dict___init__ None kwargs
   end ;;;
   put_map [] ;;;
   let kwargs_dict :=
     VDict (dict_update py_eq (map (fun kv => (KStr (fst kv), snd kv)) kwargs) []) in
   for_each merge_dict args ;;;
   merge_dict kwargs_dict)%M.
End Construction.

(** The object before [__init__] runs. *)
Definition blank : DictObject := mkDictObject [] [].

Fixpoint DictObject_new (x : value) : result value :=
  match __init__ DictObject_new [x] [] (mkWorld blank []) with
  | (Ok _, w) => Ok (obj_value (self w))
  | (Raise e, _) => Raise e
  | (Halt h, _) => Halt h
  end.

(** The public constructor, called with positional arguments [args]
    and keyword arguments [kwargs]. *)
Definition DictObject_ (args : list value) (kwargs : list (string * value))
  : result DictObject :=
  match __init__ DictObject_new args kwargs (mkWorld blank []) with
  | (Ok _, w) => Ok (self w)
  | (Raise e, _) => Raise e
  | (Halt h, _) => Halt h
  end.

(* ================================================================== *)
(** ** Item and attribute methods *)

Definition newline : string := String "010"%char "".

(** The names the class body of [DictObject] binds. *)
Definition DictObject_attributes : list string :=
  [ "_attribute_to_key_map"; "__init__"; "merge_dict"; "__iadd__";
    "get_attribute_name_by_key"; "_add_to_object_part"; "__setitem__";
    "__delitem__"; "__setattr__"; "__getattr__"; "__delattr__";
    "__contains__" ].

(** What an attribute access evaluates to: an attribute found by the
    normal lookup on the instance and its classes, or an item. *)
Inductive attribute : Type :=
| ClassAttribute (name : string)
| Item (v : value).

(** The search [while i != 0] of [__setitem__] for the next free
    name; [fuel] bounds the number of iterations. *)
Fixpoint next_free (fuel : nat) (m : list (string * key)) (attribute_name : string)
    (k : key) (i : Z) : result string :=
  match fuel with
  | O => Halt OutOfFuel
  | S fuel' =>
      let unique_attribute_name := attribute_name ++ "_" ++ str_int i in
      match dict_get String.eqb unique_attribute_name m with
      | Some k' =>
          if negb (py_eq k' k)
          then next_free fuel' m attribute_name k (i + 1)
          else Ok unique_attribute_name
      | None => Ok unique_attribute_name
      end
  end.

Definition warning (k : key) (unique_attribute_name attribute_name : string)
    (holder : key) : string :=
  newline ++ "CRITICAL WARNING in DictObject: Mapped key '" ++ str k
  ++ "' to attribute '" ++ unique_attribute_name
  ++ "', because attribute '" ++ attribute_name
  ++ "' was already set by key '" ++ str holder ++ "'.".

Section Methods.
(** The attribute names that the built-in [dict] type and [object]
    resolve ([keys], [items], [__class__], ...): they depend on the
    interpreter. *)
Variable dict_attribute : string -> bool.

(** [dict.__getattribute__(self, name)] finds the attribute. *)
Definition has_normal_attribute (name : string) : bool :=
  existsb (String.eqb name) DictObject_attributes || dict_attribute name.

Definition __setitem__ (fuel : nat) (k : key) (v : value) : M unit :=
  (attribute_name <- lift (get_attribute_name_by_key k) ;;
   m <- get_map ;;
   unique_attribute_name <-
     match dict_get String.eqb attribute_name m with
     | Some holder =>
         if negb (py_eq holder k) then
           u <- lift (next_free fuel m attribute_name k 1) ;;
           print (warning k u attribute_name holder) ;;;
           ret u
         else ret attribute_name
     | None => ret attribute_name
     end ;;
   _add_to_object_part DictObject_new k v ;;;
   m' <- get_map ;;
   put_map (dict_set String.eqb unique_attribute_name k m'))%M.

Definition __delitem__ (k : key) : M unit :=
  (attribute_name <- lift (get_attribute_name_by_key k) ;;
   m <- get_map ;;
   (if dict_contains String.eqb attribute_name m
    then put_map (dict_del String.eqb attribute_name m)
    else raise KeyError) ;;;
   dict___delitem__ k)%M.

(** The map that an assignment to [_attribute_to_key_map] installs. *)
Definition as_attribute_map (v : value) : result (list (string * key)) :=
  match v with
  | VDict d | VObj d _ =>
      map_result
        (fun kv => match fst kv, to_key (snd kv) with
                   | KStr name, Some k => Ok (name, k)
                   | _, _ => Halt OutsideModel
                   end) d
  | _ => Halt OutsideModel
  end.

Definition __setattr__ (name : string) (v : value) : M unit :=
  if String.eqb name "_attribute_to_key_map" then
    (m <- lift (as_attribute_map v) ;; put_map m)%M
  else
    (m <- get_map ;;
     let key_name :=
       match dict_get String.eqb name m with
       | Some k => k
       | None => KStr name
       end in
     _add_to_object_part DictObject_new (KStr name) v ;;;
     m' <- get_map ;;
     put_map (dict_set String.eqb name key_name m') ;;;
     m'' <- get_map ;;
     match dict_get String.eqb name m'' with
     | Some k => dict___setitem__ k v
     | None => raise KeyError
     end)%M.

Definition __getattr__ (name : string) : M attribute :=
  if has_normal_attribute name then ret (ClassAttribute name)
  else
    (* except AttributeError: *)
    (m <- get_map ;;
     match m with
     | _ :: _ =>
         match dict_get String.eqb name m with
         | Some key_name =>
             d <- get_items ;;
             match dict_get py_eq key_name d with
             | Some v => ret (Item v)
             | None => raise (AttributeError name)   (* except KeyError *)
             end
         | None => raise (AttributeError name)       (* except KeyError *)
         end
     | [] =>
         print "_attribute_to_key_map not dofined." ;;;
         ret (Item VNone)
     end)%M.

Definition __delattr__ (name : string) : M unit :=
  (m <- get_map ;;
   match dict_get String.eqb name m with
   | Some k =>
       dict___delitem__ k ;;;
       m' <- get_map ;;
       if dict_contains String.eqb name m'
       then put_map (dict_del String.eqb name m')
       else raise KeyError
   | None => raise KeyError
   end)%M.

(** [hasattr(self, k)]: the name must be a string ([TypeError]);
    [AttributeError] means that the attribute is missing. *)
Definition hasattr (k : value) : M bool :=
  match k with
  | VStr name =>
      fun w =>
        match __getattr__ name w with
        | (Ok _, w') => (Ok true, w')
        | (Raise (AttributeError _), w') => (Ok false, w')
        | (Raise e, w') => (Raise e, w')
        | (Halt h, w') => (Halt h, w')
        end
  | _ => raise TypeError
  end.

(** [dict.__contains__(self, k)]: hashes [k]. *)
Definition dict___contains__ (k : value) : M bool :=
  match to_key k with
  | Some k' => (d <- get_items ;; ret (dict_contains py_eq k' d))%M
  | None => if hashable k then ret false else raise TypeError
  end.

(** The body of the [try] of [__contains__]. *)
Definition contains_attempt (k : value) : M bool :=
(b <- dict___contains__ k ;; if b then ret true else hasattr k)%M.

Definition __contains__ (k : value) : M bool :=
fun w =>
  match contains_attempt k w with
  | (Raise _, w') => (Ok false, w')                   (* except: *)
  | other => other
  end.

Definition __iadd__ (other : value) : M unit :=
  merge_dict DictObject_new other.
End Methods.

(** An interpreter's table for [dict_attribute]: the public methods of
    [dict] and the special names that dict or object define. *)
Definition cpython_dict_attribute (name : string) : bool :=
  existsb (String.eqb name)
    [ "clear"; "copy"; "fromkeys"; "get"; "items"; "keys"; "pop";
      "popitem"; "setdefault"; "update"; "values";
      "__class__"; "__dict__"; "__doc__"; "__module__"; "__eq__";
      "__ne__"; "__getitem__"; "__getattribute__"; "__hash__";
      "__iter__"; "__len__"; "__new__"; "__repr__"; "__str__";
      "__reduce__"; "__reduce_ex__"; "__sizeof__"; "__dir__";
      "__format__"; "__init_subclass__"; "__subclasshook__";
      "__lt__"; "__le__"; "__gt__"; "__ge__"; "__or__"; "__ior__";
      "__ror__"; "__reversed__"; "__class_getitem__"; "__weakref__" ].

(** The candidate names of the search and whether one is held by
    another key. *)
Definition candidate (attribute_name : string) (i : Z) : string :=
  attribute_name ++ "_" ++ str_int i.

Definition taken (m : list (string * key)) (attribute_name : string) (k : key)
    (i : Z) : bool :=
  match dict_get String.eqb (candidate attribute_name i) m with
  | Some k' => negb (py_eq k' k)
  | None => false
  end.

(** The name under which [__setitem__] registers a key: the derived
    name, or the first free candidate when another key holds it. *)
Definition resolved_name (fuel : nat) (m : list (string * key)) (k : key)
  : result string :=
  rbind (get_attribute_name_by_key k) (fun attribute_name =>
    match dict_get String.eqb attribute_name m with
    | Some holder =>
        if negb (py_eq holder k) then next_free fuel m attribute_name k 1
        else Ok attribute_name
    | None => Ok attribute_name
    end).

(** What [__setitem__] prints. *)
Definition collision_report (m : list (string * key)) (k : key)
    (attribute_name unique_attribute_name : string) : list string :=
  match dict_get String.eqb attribute_name m with
  | Some holder =>
      if negb (py_eq holder k)
      then [warning k unique_attribute_name attribute_name holder]
      else []
  | None => []
  end.

(** Every character of a string passes a test. *)
Fixpoint string_forall (p : ascii -> bool) (s : string) : bool :=
  match s with
  | EmptyString => true
  | String c rest => p c && string_forall p rest
  end.



(** The derived name is registered to a key other than [k]: the test
    that sends [__setitem__] to the search. *)
Definition taken_by_other (m : list (string * key)) (attribute_name : string)
    (k : key) : bool :=
  match dict_get String.eqb attribute_name m with
  | Some holder => negb (py_eq holder k)
  | None => false
  end.

(** A string shaped like an identifier: not empty, no leading digit
    ([str.isdigit]), only characters matched by [\w].  This is the
    shape that the derivation aims at, not the test [str.isidentifier]:
    a keyword such as [class] has the shape, and so has a name that
    holds a superscript digit after its first character. *)
Definition is_identifier (s : string) : bool :=
  match s with
  | EmptyString => false
  | String c _ => negb (isdigit c) && string_forall is_word s
  end.

(** The keys of a dict are pairwise different for [==], as they are in
    every dict that Python builds. *)
Fixpoint dict_distinct {K V : Type} (eqb : K -> K -> bool) (d : list (K * V))
  : bool :=
  match d with
  | [] => true
  | (k, _) :: rest => negb (dict_contains eqb k rest) && dict_distinct eqb rest
  end.

(** Every key of the store is found through some registered name. *)
Definition all_registered (o : DictObject) : Prop :=
  forall k, dict_contains py_eq k (items o) = true ->
    exists name k', dict_get String.eqb name (_attribute_to_key_map o) = Some k'
                    /\ py_eq k' k = true.

(** What [k in b] answers, read off the object: [k] is a key of the
    store, or a string that the attribute lookup resolves. *)
Definition contained (dict_attribute : string -> bool) (o : DictObject)
    (k : value) : bool :=
  match to_key k with
  | Some k' =>
      dict_contains py_eq k' (items o)
      || match k with
         | VStr name =>
             has_normal_attribute dict_attribute name
             || match _attribute_to_key_map o with
                | [] => true
                | m =>
                    match dict_get String.eqb name m with
                    | Some key_name => dict_contains py_eq key_name (items o)
                    | None => false
                    end
                end
         | _ => false
         end
  | None => false
  end.

(* ================================================================== *)
(** * Properties *)

(** Unfolds the monad and the methods of the built-in dict in a goal. *)
Ltac run_methods :=
  cbv [bind lift raise ret print get_items get_map put_items put_map
       dict___setitem__ dict___getitem__ dict___delitem__
       self items _attribute_to_key_map stdout].

(** ** Strings and keys *)

Lemma str_int_inj (a b : Z) : str_int a = str_int b -> a = b.
Proof.
  unfold str_int. intro H.
  apply DecimalZ.to_int_inj.
  assert (G : forall z, NilZero.int_of_string (NilZero.string_of_int (Z.to_int z))
                        = Some (Z.to_int z)).
  { intro z. apply NilZero.isi; destruct z; simpl; try discriminate;
      intro E; injection E as E;
      exact (DecimalPos.Unsigned.to_uint_nonnil _ E). }
  pose proof (G a) as Ga. rewrite H, G in Ga. congruence.
Qed.

Lemma str_int_nonempty (z : Z) : str_int z <> "".
Proof.
  unfold str_int. destruct z as [|p|p]; simpl; try discriminate.
  pose proof (DecimalPos.Unsigned.to_uint_nonnil p) as N.
  unfold NilZero.string_of_uint.
  destruct (Pos.to_uint p); try congruence; discriminate.
Qed.

Lemma str_empty (k : key) : str k = "" -> k = KStr "".
Proof.
  destruct k as [s|z|[|]|]; simpl; try discriminate.
  - now intros ->.
  - intro H. now apply str_int_nonempty in H.
Qed.

Lemma append_inj_l (p s t : string) : p ++ s = p ++ t -> s = t.
Proof.
  induction p as [|c p IH]; simpl; [easy|].
  intro H. injection H as H. auto.
Qed.

Lemma candidate_inj (name : string) (i j : Z) :
  candidate name i = candidate name j -> i = j.
Proof.
  unfold candidate. intro H.
  apply append_inj_l in H. apply append_inj_l in H.
  now apply str_int_inj.
Qed.

Lemma append_neq_self (p s : string) : s <> "" -> p ++ s <> p.
Proof.
  intros Hs H. apply Hs. apply (append_inj_l p).
  rewrite H. clear. induction p as [|c p IH]; simpl; congruence.
Qed.

Lemma candidate_neq_name (name : string) (i : Z) : candidate name i <> name.
Proof. unfold candidate. apply append_neq_self. discriminate. Qed.

Lemma py_eq_refl (k : key) : py_eq k k = true.
Proof.
  destruct k as [s|z|[|]|]; simpl; auto using String.eqb_refl, Z.eqb_refl.
Qed.

Lemma py_eq_sym (a b : key) : py_eq a b = py_eq b a.
Proof.
  destruct a as [s|z|[|]|], b as [t|y|[|]|]; simpl;
    auto using String.eqb_sym, Z.eqb_sym.
Qed.

Lemma py_eq_trans (a b c : key) :
  py_eq a b = true -> py_eq b c = true -> py_eq a c = true.
Proof.
  destruct a as [s|z|[|]|], b as [t|y|[|]|], c as [u|x|[|]|];
    unfold py_eq, as_int; try discriminate; auto;
    rewrite ?String.eqb_eq, ?Z.eqb_eq; intros; subst; auto; try lia.
Qed.

(** Python-equal keys of the same type are the same key. *)
Lemma py_eq_str (s : string) (k : key) : py_eq (KStr s) k = true -> k = KStr s.
Proof.
  destruct k as [t|y|[|]|]; simpl; try discriminate.
  rewrite String.eqb_eq. now intros ->.
Qed.

(** ** Dictionaries *)

Section DictFacts.
Context {K V : Type}.
Variable eqb : K -> K -> bool.
Hypothesis eqb_refl : forall k, eqb k k = true.
Hypothesis eqb_sym : forall a b, eqb a b = eqb b a.
Hypothesis eqb_trans :
  forall a b c, eqb a b = true -> eqb b c = true -> eqb a c = true.

Lemma dict_get_set_same (k : K) (v : V) (d : list (K * V)) :
  dict_get eqb k (dict_set eqb k v d) = Some v.
Proof.
  induction d as [|[k' v'] d IH]; simpl.
  - now rewrite eqb_refl.
  - destruct (eqb k' k) eqn:E; simpl; now rewrite E.
Qed.

Lemma dict_get_set_other (k k0 : K) (v : V) (d : list (K * V)) :
  eqb k k0 = false ->
  dict_get eqb k0 (dict_set eqb k v d) = dict_get eqb k0 d.
Proof.
  intro N. induction d as [|[k' v'] d IH]; simpl.
  - now rewrite N.
  - destruct (eqb k' k) eqn:E; simpl.
    + destruct (eqb k' k0) eqn:E0; auto.
      rewrite eqb_sym in E.
      now rewrite (eqb_trans _ _ _ E E0) in N.
    + now rewrite IH.
Qed.

(** Assigning to a key that is present changes no key and no
    position. *)
Lemma dict_set_keys_present (k : K) (v : V) (d : list (K * V)) :
  dict_contains eqb k d = true ->
  map fst (dict_set eqb k v d) = map fst d.
Proof.
  unfold dict_contains.
  induction d as [|[k' v'] d IH]; simpl; [discriminate|].
  destruct (eqb k' k); simpl; auto. intro H. now rewrite IH.
Qed.

(** Assigning to a key that is absent appends it. *)
Lemma dict_set_absent (k : K) (v : V) (d : list (K * V)) :
  dict_contains eqb k d = false -> dict_set eqb k v d = (d ++ [(k, v)])%list.
Proof.
  unfold dict_contains.
  induction d as [|[k' v'] d IH]; simpl; auto.
  destruct (eqb k' k); [discriminate|]. intro H. now rewrite IH.
Qed.

Lemma dict_set_length (k : K) (v : V) (d : list (K * V)) :
  List.length (dict_set eqb k v d)
  = if dict_contains eqb k d then List.length d else S (List.length d).
Proof.
  unfold dict_contains.
  induction d as [|[k' v'] d IH]; simpl; auto.
  destruct (eqb k' k); simpl; auto.
  rewrite IH. now destruct (dict_get eqb k d).
Qed.

Lemma dict_contains_set (k k0 : K) (v : V) (d : list (K * V)) :
  dict_contains eqb k0 (dict_set eqb k v d)
  = eqb k k0 || dict_contains eqb k0 d.
Proof.
  unfold dict_contains. destruct (eqb k k0) eqn:E; simpl.
  - assert (G : dict_get eqb k0 (dict_set eqb k v d) = Some v).
    { induction d as [|[k' v'] d IH]; simpl.
      - now rewrite E.
      - destruct (eqb k' k) eqn:E1; simpl.
        + now rewrite (eqb_trans _ _ _ E1 E).
        + destruct (eqb k' k0) eqn:E2; auto.
          rewrite eqb_sym in E.
          now rewrite (eqb_trans _ _ _ E2 E) in E1. }
    now rewrite G.
  - now rewrite dict_get_set_other.
Qed.

Lemma dict_get_In (k : K) (v : V) (d : list (K * V)) :
  dict_get eqb k d = Some v -> exists k', In (k', v) d /\ eqb k' k = true.
Proof.
  induction d as [|[k' v'] d IH]; simpl; [discriminate|].
  destruct (eqb k' k) eqn:E.
  - intro H. injection H as ->. eauto.
  - intro H. destruct (IH H) as (k1 & I & E1). eauto.
Qed.
End DictFacts.

(** On names, [==] is equality. *)
Lemma map_set_registered (name : string) (k : key) (m : list (string * key)) :
  dict_get String.eqb name m = Some k -> dict_set String.eqb name k m = m.
Proof.
  induction m as [|[n' k'] m IH]; simpl; [discriminate|].
  destruct (String.eqb n' name) eqn:E.
  - intro H. now injection H as ->.
  - intro H. now rewrite IH.
Qed.

Lemma map_get_In (name : string) (k : key) (m : list (string * key)) :
  dict_get String.eqb name m = Some k -> In name (map fst m).
Proof.
  intro H.
  destruct (dict_get_In String.eqb name k m H) as (n' & I & E).
  apply String.eqb_eq in E. subst n'.
  now apply (in_map fst) in I.
Qed.

Lemma map_get_set_same (name : string) (k : key) (m : list (string * key)) :
  dict_get String.eqb name (dict_set String.eqb name k m) = Some k.
Proof. apply dict_get_set_same, String.eqb_refl. Qed.

Lemma map_get_set_other (name name0 : string) (k : key) (m : list (string * key)) :
  name <> name0 ->
  dict_get String.eqb name0 (dict_set String.eqb name k m)
  = dict_get String.eqb name0 m.
Proof.
  intro N. apply dict_get_set_other.
  - apply String.eqb_sym.
  - intros a b c. rewrite !String.eqb_eq. congruence.
  - now apply String.eqb_neq.
Qed.

Lemma items_get_set_same (k : key) (v : value) (d : list (key * value)) :
  dict_get py_eq k (dict_set py_eq k v d) = Some v.
Proof. apply dict_get_set_same, py_eq_refl. Qed.

Lemma items_get_set_other (k k0 : key) (v : value) (d : list (key * value)) :
  py_eq k k0 = false ->
  dict_get py_eq k0 (dict_set py_eq k v d) = dict_get py_eq k0 d.
Proof.
  apply dict_get_set_other; [apply py_eq_sym | apply py_eq_trans].
Qed.

(** ** The search for a free name *)

(** A bounded search either finds the least index where a test fails
    or the test holds below the bound. *)
Lemma least_failure (P : nat -> bool) (b : nat) :
  (exists n, (n < b)%nat /\ P n = false /\
             forall j, (j < n)%nat -> P j = true)
  \/ (forall n, (n < b)%nat -> P n = true).
Proof.
  induction b as [|b [(n & L & F & A)|A]].
  - right. intros n L. lia.
  - left. exists n. repeat split; auto.
  - destruct (P b) eqn:E.
    + right. intros n L.
      destruct (Nat.eq_dec n b) as [->|]; auto. apply A. lia.
    + left. exists b. repeat split; auto.
Qed.

(** More candidates than registered names: one of them is not
    registered. *)
Lemma candidates_not_all_taken (m : list (string * key)) (name : string) (k : key) :
  ~ (forall n, (n < S (List.length m))%nat ->
               taken m name k (1 + Z.of_nat n) = true).
Proof.
  intro A.
  set (cands := map (fun n => candidate name (1 + Z.of_nat n))
                    (seq 0 (S (List.length m)))).
  assert (ND : NoDup cands).
  { apply Injective_map_NoDup; [|apply seq_NoDup].
    intros x y E. apply candidate_inj in E. lia. }
  assert (I : incl cands (map fst m)).
  { intros c Hc. apply in_map_iff in Hc as (n & <- & Hn).
    apply in_seq in Hn. specialize (A n ltac:(lia)).
    unfold taken in A.
    destruct (dict_get String.eqb (candidate name (1 + Z.of_nat n)) m)
      as [k'|] eqn:G; [|discriminate].
    eapply map_get_In; eauto. }
  pose proof (NoDup_incl_length ND I) as L.
  unfold cands in L. rewrite !length_map, length_seq in L. lia.
Qed.

Lemma next_free_least (m : list (string * key)) (name : string) (k : key)
    (n : nat) :
  forall (fuel : nat) (i : Z),
    (n < fuel)%nat ->
    (forall j, (j < n)%nat -> taken m name k (i + Z.of_nat j) = true) ->
    taken m name k (i + Z.of_nat n) = false ->
    next_free fuel m name k i = Ok (candidate name (i + Z.of_nat n)).
Proof.
  induction n as [|n IH]; intros fuel i L A F.
  - destruct fuel as [|fuel]; [lia|]. cbn [next_free].
    replace (i + Z.of_nat 0)%Z with i in * by lia.
    unfold taken, candidate in F.
    destruct (dict_get String.eqb (name ++ "_" ++ str_int i) m); auto.
    now rewrite F.
  - destruct fuel as [|fuel]; [lia|]. cbn [next_free].
    pose proof (A 0%nat ltac:(lia)) as T.
    replace (i + Z.of_nat 0)%Z with i in T by lia.
    unfold taken, candidate in T.
    destruct (dict_get String.eqb (name ++ "_" ++ str_int i) m);
      [|discriminate].
    rewrite T.
    replace (i + Z.of_nat (S n))%Z with ((i + 1) + Z.of_nat n)%Z in * by lia.
    apply IH; [lia| |assumption].
    intros j Lj. specialize (A (S j) ltac:(lia)).
    now replace (i + Z.of_nat (S j))%Z with (i + 1 + Z.of_nat j)%Z in A by lia.
Qed.

(** The least free suffix exists and is what the search returns. *)
Lemma next_free_result (m : list (string * key)) (name : string) (k : key) :
  exists N : Z,
    (1 <= N <= Z.of_nat (List.length m) + 1)%Z /\
    taken m name k N = false /\
    (forall j, (1 <= j < N)%Z -> taken m name k j = true) /\
    (forall fuel, (List.length m < fuel)%nat ->
                  next_free fuel m name k 1 = Ok (candidate name N)).
Proof.
  destruct (least_failure (fun n => taken m name k (1 + Z.of_nat n))
                          (S (List.length m)))
    as [(n & L & F & A)|A].
  - exists (1 + Z.of_nat n)%Z. repeat split; try lia; auto.
    + intros j Hj. specialize (A (Z.to_nat (j - 1)) ltac:(lia)).
      now replace (1 + Z.of_nat (Z.to_nat (j - 1)))%Z with j in A by lia.
    + intros fuel Lf. apply next_free_least; auto. lia.
  - now apply candidates_not_all_taken in A.
Qed.

(** ** Item assignment *)

Lemma setitem_run (fuel : nat) (k : key) (v : value) (w : world)
    (name u : string) (wv : value) :
  get_attribute_name_by_key k = Ok name ->
  resolved_name fuel (_attribute_to_key_map (self w)) k = Ok u ->
  wrap DictObject_new v = Ok wv ->
  __setitem__ fuel k v w =
  (Ok tt,
   mkWorld
     (mkDictObject (dict_set py_eq k wv (items (self w)))
                   (dict_set String.eqb u k (_attribute_to_key_map (self w))))
     (stdout w ++ collision_report (_attribute_to_key_map (self w)) k name u)).
Proof.
  destruct w as [[its m] out]. unfold resolved_name, collision_report. simpl.
  intros Hn Hu Hw. rewrite Hn in Hu. simpl in Hu.
  unfold __setitem__, _add_to_object_part, dict___setitem__, bind, lift,
    get_map, get_items, put_map, put_items, print, ret.
  rewrite Hn. simpl.
  destruct (dict_get String.eqb name m) as [holder|].
  - destruct (negb (py_eq holder k)).
    + rewrite Hu, Hw. reflexivity.
    + injection Hu as <-. rewrite Hw. simpl. now rewrite app_nil_r.
  - injection Hu as <-. rewrite Hw. simpl. now rewrite app_nil_r.
Qed.

Lemma setitem_inv (fuel : nat) (k : key) (v : value) (w w' : world) :
  __setitem__ fuel k v w = (Ok tt, w') ->
  exists name u wv,
    get_attribute_name_by_key k = Ok name /\
    resolved_name fuel (_attribute_to_key_map (self w)) k = Ok u /\
    wrap DictObject_new v = Ok wv.
Proof.
  destruct w as [[its m] out]. unfold resolved_name. simpl.
  unfold __setitem__, _add_to_object_part, dict___setitem__, bind, lift,
    get_map, get_items, put_map, put_items, print, ret.
  destruct (get_attribute_name_by_key k) as [name| |]; simpl;
    try discriminate.
  destruct (dict_get String.eqb name m) as [holder|].
  - destruct (negb (py_eq holder k)).
    + destruct (next_free fuel m name k 1) as [u| |]; simpl; try discriminate.
      destruct (wrap DictObject_new v) as [wv| |]; simpl; try discriminate.
      intros _. now exists name, u, wv.
    + destruct (wrap DictObject_new v) as [wv| |]; simpl; try discriminate.
      intros _. now exists name, name, wv.
  - destruct (wrap DictObject_new v) as [wv| |]; simpl; try discriminate.
    intros _. now exists name, name, wv.
Qed.

(** With fuel beyond the size of the map, the registered name is the
    derived name or its least free candidate. *)
Lemma resolved_name_total (fuel : nat) (m : list (string * key)) (k : key)
    (name : string) :
  get_attribute_name_by_key k = Ok name ->
  (List.length m < fuel)%nat ->
  exists u, resolved_name fuel m k = Ok u /\
            (u = name \/ exists N, (1 <= N)%Z /\ u = candidate name N).
Proof.
  intros Hn L. unfold resolved_name. rewrite Hn. simpl.
  destruct (dict_get String.eqb name m) as [holder|]; [|eauto].
  destruct (negb (py_eq holder k)); [|eauto].
  destruct (next_free_result m name k) as (N & B & _ & _ & R).
  exists (candidate name N). split; [now apply R|].
  right. exists N. split; [lia|reflexivity].
Qed.

Lemma taken_false_iff (m : list (string * key)) (name : string) (k : key) (i : Z) :
  taken m name k i = false <->
  dict_get String.eqb (candidate name i) m = None
  \/ exists k', dict_get String.eqb (candidate name i) m = Some k'
                /\ py_eq k' k = true.
Proof.
  unfold taken.
  destruct (dict_get String.eqb (candidate name i) m) as [k'|]; split; auto.
  - intro H. right. exists k'. split; auto.
    now destruct (py_eq k' k).
  - intros [H|(k0 & H & E)]; [discriminate|].
    injection H as <-. now rewrite E.
Qed.

Lemma taken_true_iff (m : list (string * key)) (name : string) (k : key) (i : Z) :
  taken m name k i = true <->
  exists k', dict_get String.eqb (candidate name i) m = Some k'
             /\ py_eq k' k = false.
Proof.
  unfold taken.
  destruct (dict_get String.eqb (candidate name i) m) as [k'|]; split.
  - intro H. exists k'. split; auto. now destruct (py_eq k' k).
  - intros (k0 & H & E). injection H as <-. now rewrite E.
  - discriminate.
  - intros (k0 & H & _). discriminate.
Qed.

(** C10.  For every attribute map, the search of [__setitem__] for a
    free name ends: there is a least suffix [N >= 1] whose candidate
    [name_N] is unregistered or registered to a key equal to the one
    being set; with a budget of iterations above the size of the map
    the loop returns that candidate, and on the collision path
    [__setitem__] completes and registers the key under exactly that
    name. *)
Theorem suffix_search_terminates (m : list (string * key)) (name : string)
    (k : key) :
  exists N : Z,
    (1 <= N)%Z /\
    (dict_get String.eqb (candidate name N) m = None
     \/ exists k', dict_get String.eqb (candidate name N) m = Some k'
                   /\ py_eq k' k = true) /\
    (forall j, (1 <= j < N)%Z ->
       exists k', dict_get String.eqb (candidate name j) m = Some k'
                  /\ py_eq k' k = false) /\
    (forall fuel, (List.length m < fuel)%nat ->
       next_free fuel m name k 1 = Ok (candidate name N)) /\
    (forall fuel v wv its out holder,
       (List.length m < fuel)%nat ->
       get_attribute_name_by_key k = Ok name ->
       dict_get String.eqb name m = Some holder ->
       py_eq holder k = false ->
       wrap DictObject_new v = Ok wv ->
       __setitem__ fuel k v (mkWorld (mkDictObject its m) out) =
       (Ok tt,
        mkWorld (mkDictObject (dict_set py_eq k wv its)
                              (dict_set String.eqb (candidate name N) k m))
                (out ++ [warning k (candidate name N) name holder]))).
Proof.
  destruct (next_free_result m name k) as (N & B & F & A & R).
  exists N. split; [lia|]. split; [now apply taken_false_iff|].
  split; [intros j Hj; now apply taken_true_iff, A|].
  split; [exact R|].
  intros fuel v wv its out holder L Hn Hh He Hw.
  rewrite (setitem_run fuel k v _ name (candidate name N) wv); auto.
  - unfold collision_report. simpl. now rewrite Hh, He.
  - unfold resolved_name. rewrite Hn. simpl. rewrite Hh, He. simpl. now apply R.
Qed.

(** The second key on the name [int_1]: the search steps over
    [int_1_1], held by a third key, and settles on [int_1_2]. *)
Lemma suffix_search_terminates_witness :
  next_free 4 [("int_1", KStr "1"); ("int_1_1", KStr "1.1")] "int_1" (KInt 1) 1
  = Ok "int_1_2".
Proof.
  destruct (suffix_search_terminates
              [("int_1", KStr "1"); ("int_1_1", KStr "1.1")] "int_1" (KInt 1))
    as (N & B & F & A & R & _).
  assert (E : N = 2%Z).
  { destruct (Z.eq_dec N 1) as [->|]; [|destruct (Z.eq_dec N 2) as [|]; auto].
    - destruct F as [F|(k' & F & E)]; [discriminate|].
      vm_compute in F. injection F as <-. discriminate.
    - destruct (A 2%Z ltac:(lia)) as (k' & G & _). discriminate. }
  subst N. apply (R 4%nat). simpl. lia.
Defined.

(** ** Access after assignment *)

Lemma getattr_registered (dict_attribute : string -> bool) (name : string)
    (k : key) (v : value) (w : world) :
  has_normal_attribute dict_attribute name = false ->
  dict_get String.eqb name (_attribute_to_key_map (self w)) = Some k ->
  dict_get py_eq k (items (self w)) = Some v ->
  __getattr__ dict_attribute name w = (Ok (Item v), w).
Proof.
  destruct w as [[its m] out]. simpl. intros Hc Hm Hi.
  unfold __getattr__. rewrite Hc.
  unfold bind, get_map, get_items, ret. cbn [self _attribute_to_key_map items].
  destruct m as [|e m]; [discriminate|].
  rewrite Hm. cbn [self _attribute_to_key_map items]. now rewrite Hi.
Qed.

(** C1 (amended).  After [__setitem__(K, V)] completes, item access
    with [K] returns the wrapped value and the resolved (possibly
    suffixed) name is registered for [K].  Attribute access with that
    name returns the same wrapped value when the normal attribute
    lookup on the instance does not find the name; when it does, the
    attribute found by the normal lookup is returned instead. *)
Theorem setitem_then_access (dict_attribute : string -> bool) (fuel : nat)
    (k : key) (v : value) (w w' : world) :
  __setitem__ fuel k v w = (Ok tt, w') ->
  exists (wv : value) (u : string),
    wrap DictObject_new v = Ok wv /\
    resolved_name fuel (_attribute_to_key_map (self w)) k = Ok u /\
    dict_get String.eqb u (_attribute_to_key_map (self w')) = Some k /\
    dict___getitem__ k w' = (Ok wv, w') /\
    (has_normal_attribute dict_attribute u = false ->
     __getattr__ dict_attribute u w' = (Ok (Item wv), w')) /\
    (has_normal_attribute dict_attribute u = true ->
     __getattr__ dict_attribute u w' = (Ok (ClassAttribute u), w')).
Proof.
  intro H.
  destruct (setitem_inv _ _ _ _ _ H) as (name & u & wv & Hn & Hu & Hw).
  rewrite (setitem_run fuel k v w name u wv Hn Hu Hw) in H.
  injection H as <-.
  exists wv, u. split; [assumption|]. split; [assumption|].
  assert (Hm : dict_get String.eqb u
                 (dict_set String.eqb u k (_attribute_to_key_map (self w)))
               = Some k) by apply map_get_set_same.
  assert (Hi : dict_get py_eq k (dict_set py_eq k wv (items (self w)))
               = Some wv) by apply items_get_set_same.
  split; [exact Hm|]. split; [|split].
  - unfold dict___getitem__, bind, get_items, ret. simpl. now rewrite Hi.
  - intro Hc. now apply getattr_registered with (k := k).
  - intro Hc. unfold __getattr__. rewrite Hc. reflexivity.
Qed.

(** The doctest [b["1"] = "a"; b[1] = "b"]: the second key is found
    again as [b[1]] and as [b.int_1_1]; and after
    [b["merge_dict"] = 1] the attribute [b.merge_dict] is the
    method. *)
Lemma setitem_then_access_witness :
  let w := mkWorld (mkDictObject [(KStr "1", VStr "a")] [("int_1", KStr "1")]) [] in
  (exists w',
     __setitem__ 2 (KInt 1) (VStr "b") w = (Ok tt, w') /\
     dict___getitem__ (KInt 1) w' = (Ok (VStr "b"), w') /\
     __getattr__ cpython_dict_attribute "int_1_1" w' = (Ok (Item (VStr "b")), w')) /\
  (exists w',
     __setitem__ 1 (KStr "merge_dict") (VInt 1) (mkWorld blank []) = (Ok tt, w') /\
     __getattr__ cpython_dict_attribute "merge_dict" w'
     = (Ok (ClassAttribute "merge_dict"), w')).
Proof.
  intro w. split.
  - destruct (__setitem__ 2 (KInt 1) (VStr "b") w) as [r w'] eqn:E.
    assert (Hr : r = Ok tt) by (vm_compute in E; congruence).
    subst r. exists w'. split; [reflexivity|].
    destruct (setitem_then_access cpython_dict_attribute 2 (KInt 1) (VStr "b")
                w w' E) as (wv & u & Hw & Hu & _ & Hi & Ha & _).
    vm_compute in Hw. injection Hw as <-.
    vm_compute in Hu. injection Hu as <-.
    split; [exact Hi|]. apply Ha. reflexivity.
  - destruct (__setitem__ 1 (KStr "merge_dict") (VInt 1) (mkWorld blank []))
      as [r w'] eqn:E.
    assert (Hr : r = Ok tt) by (vm_compute in E; congruence).
    subst r. exists w'. split; [reflexivity|].
    destruct (setitem_then_access cpython_dict_attribute 1 (KStr "merge_dict")
                (VInt 1) (mkWorld blank []) w' E)
      as (wv & u & _ & Hu & _ & _ & _ & Hc).
    vm_compute in Hu. injection Hu as <-. apply Hc. reflexivity.
Defined.

(** C1 as stated fails for a key whose name the class itself defines:
    after [b["merge_dict"] = 1] the name [merge_dict] is registered
    for the key and [b["merge_dict"]] is [1], but [b.merge_dict] is
    the method. *)
Lemma setitem_then_access_counterexample :
  ~ (forall (k : key) (v wv : value) (u : string) (w w' : world),
       __setitem__ 1 k v w = (Ok tt, w') ->
       wrap DictObject_new v = Ok wv ->
       resolved_name 1 (_attribute_to_key_map (self w)) k = Ok u ->
       dict___getitem__ k w' = (Ok wv, w') /\
       __getattr__ cpython_dict_attribute u w' = (Ok (Item wv), w')).
Proof.
  intro H.
  destruct (H (KStr "merge_dict") (VInt 1) (VInt 1) "merge_dict"
              (mkWorld blank [])
              (mkWorld (mkDictObject [(KStr "merge_dict", VInt 1)]
                                     [("merge_dict", KStr "merge_dict")]) [])
              eq_refl eq_refl eq_refl) as [_ A].
  vm_compute in A. discriminate.
Qed.

(** ** Derived names *)

Lemma sub_from_allowed (b : bool) (s : string) :
  string_forall is_word (sub_from b s) = true.
Proof.
  revert b. induction s as [|c s IH]; intro b; simpl; auto.
  destruct (is_word c) eqn:E; simpl.
  - now rewrite E, IH.
  - destruct b; simpl; auto.
Qed.

Lemma sub_from_word_prefix (b : bool) (w s : string) :
  string_forall is_word w = true -> w <> "" ->
  sub_from b (w ++ s) = w ++ sub_from false s.
Proof.
  revert b. induction w as [|c w IH]; intros b H N; [congruence|].
  simpl in *. apply andb_prop in H as [Hc Hw]. rewrite Hc.
  destruct w as [|c' w]; [reflexivity|].
  now rewrite IH.
Qed.



Lemma unallowed_sub_allowed (w : string) :
  string_forall is_word w = true -> unallowed_sub w = w.
Proof.
  unfold unallowed_sub. induction w as [|c w IH]; simpl; auto.
  intro H. apply andb_prop in H as [Hc Hw]. rewrite Hc. now rewrite IH.
Qed.




(** ** The empty string as a key *)

(** C9.  The derivation of a name fails with [IndexError] on the empty
    string, and on no other key; [__setitem__], [__delitem__] and
    [merge_dict] then raise it before they change anything, although
    the underlying dict stores the key. *)
Theorem empty_string_key :
  get_attribute_name_by_key (KStr "") = Raise IndexError /\
  (forall k, match get_attribute_name_by_key k with
             | Ok _ => k <> KStr ""
             | Raise e => e = IndexError /\ k = KStr ""
             | Halt _ => False
             end) /\
  (forall fuel v w, __setitem__ fuel (KStr "") v w = (Raise IndexError, w)) /\
  (forall w, __delitem__ (KStr "") w = (Raise IndexError, w)) /\
  (forall v rest w,
     merge_dict DictObject_new (VDict ((KStr "", v) :: rest)) w
     = (Raise IndexError, w)) /\
  (forall v w,
     (dict___setitem__ (KStr "") v ;;; dict___getitem__ (KStr ""))%M w
     = (Ok v, mkWorld (mkDictObject (dict_set py_eq (KStr "") v (items (self w)))
                                    (_attribute_to_key_map (self w)))
                      (stdout w))).
Proof.
  split; [reflexivity|]. split.
  { intro k. unfold get_attribute_name_by_key.
    destruct (str k) as [|c rest] eqn:E.
    - split; [reflexivity|]. now apply str_empty.
    - intros ->. discriminate. }
  split; [reflexivity|]. split; [reflexivity|]. split; [reflexivity|].
  intros v w. run_methods. now rewrite items_get_set_same.
Qed.

(** ** Containment *)

Lemma getattr_never_halts (dict_attribute : string -> bool) (name : string)
    (w : world) :
  exists r w', __getattr__ dict_attribute name w = (r, w') /\
               forall h, r <> Halt h.
Proof.
  destruct w as [[its m] out]. unfold __getattr__.
  destruct (has_normal_attribute dict_attribute name).
  - eexists _, _. split; [reflexivity|discriminate].
  - run_methods. destruct m as [|e m].
    + eexists _, _. split; [reflexivity|discriminate].
    + destruct (dict_get String.eqb name (e :: m)) as [k|].
      * destruct (dict_get py_eq k its);
          eexists _, _; (split; [reflexivity|discriminate]).
      * eexists _, _. split; [reflexivity|discriminate].
Qed.

Lemma contains_attempt_never_halts (dict_attribute : string -> bool) (k : value)
    (w : world) :
  exists r w', contains_attempt dict_attribute k w = (r, w') /\
               forall h, r <> Halt h.
Proof.
  unfold contains_attempt, dict___contains__, hasattr.
  destruct w as [[its m] out].
  destruct (to_key k) as [k'|] eqn:Ek.
  - run_methods.
    destruct (dict_contains py_eq k' its).
    + eexists _, _. split; [reflexivity|discriminate].
    + destruct k; try (eexists _, _; split; [reflexivity|discriminate]).
      destruct (getattr_never_halts dict_attribute s
                  (mkWorld (mkDictObject its m) out)) as (r & w' & E & N).
      rewrite E. destruct r as [a|[]|h];
        try (eexists _, _; split; [reflexivity|discriminate]).
      now destruct (N h).
  - run_methods. destruct (hashable k).
    + destruct k; try discriminate;
        eexists _, _; (split; [reflexivity|discriminate]).
    + eexists _, _. split; [reflexivity|discriminate].
Qed.

(** With a map that is not empty, a name that the normal lookup does
    not find and that is unregistered, or registered to a key that is
    gone from the store, raises [AttributeError] with that name. *)
Lemma getattr_missing (dict_attribute : string -> bool) (name : string)
    (w : world) :
  has_normal_attribute dict_attribute name = false ->
  _attribute_to_key_map (self w) <> [] ->
  (dict_get String.eqb name (_attribute_to_key_map (self w)) = None
   \/ exists k, dict_get String.eqb name (_attribute_to_key_map (self w)) = Some k
                /\ dict_get py_eq k (items (self w)) = None) ->
  __getattr__ dict_attribute name w = (Raise (AttributeError name), w).
Proof.
  destruct w as [[its m] out]. cbn [self items _attribute_to_key_map].
  intros Hn Hm H. unfold __getattr__. rewrite Hn. run_methods.
  destruct m as [|e m]; [congruence|].
  destruct H as [H|(k & H & Hk)]; rewrite H; [reflexivity|].
  now rewrite Hk.
Qed.

(** C7 (amended).  [__contains__] returns a boolean for every value,
    hashable or not, string or not: it never raises, and it leaves the
    object as it is.  It is true for a key of the backing store, and
    for a string that is itself a registered name whose key is in the
    store.  It is false for an unhashable value, for a value that is
    not a string and not a key of the store (its string form is not
    looked up as a name), and, while the map is not empty, for a string
    that is not a key of the store, that the normal attribute lookup
    does not find and that is unregistered or registered to a key
    missing from the store.  When the attempt raises, the answer is
    [False]. *)
Theorem contains_never_raises (dict_attribute : string -> bool) (k : value)
    (w : world) :
  (exists b w', __contains__ dict_attribute k w = (Ok b, w') /\ self w' = self w) /\
  (forall k', to_key k = Some k' ->
     dict_contains py_eq k' (items (self w)) = true ->
     __contains__ dict_attribute k w = (Ok true, w)) /\
  (forall name k' v, k = VStr name ->
     dict_get String.eqb name (_attribute_to_key_map (self w)) = Some k' ->
     dict_get py_eq k' (items (self w)) = Some v ->
     __contains__ dict_attribute k w = (Ok true, w)) /\
  (to_key k = None -> __contains__ dict_attribute k w = (Ok false, w)) /\
  (forall k', to_key k = Some k' -> isinstance_str k' = false ->
     dict_contains py_eq k' (items (self w)) = false ->
     __contains__ dict_attribute k w = (Ok false, w)) /\
  (forall name, k = VStr name ->
     dict_contains py_eq (KStr name) (items (self w)) = false ->
     has_normal_attribute dict_attribute name = false ->
     _attribute_to_key_map (self w) <> [] ->
     (dict_get String.eqb name (_attribute_to_key_map (self w)) = None
      \/ exists k', dict_get String.eqb name (_attribute_to_key_map (self w))
                    = Some k'
                    /\ dict_get py_eq k' (items (self w)) = None) ->
     __contains__ dict_attribute k w = (Ok false, w)) /\
  (forall e w', contains_attempt dict_attribute k w = (Raise e, w') ->
     __contains__ dict_attribute k w = (Ok false, w')).
Proof.
  split; [|split; [|split; [|split; [|split; [|split]]]]].
  - destruct w as [[its m] out].
    unfold __contains__, contains_attempt, dict___contains__, hasattr.
    destruct (to_key k) as [k'|] eqn:Ek.
    + run_methods. destruct (dict_contains py_eq k' its).
      * eexists _, _. split; reflexivity.
      * destruct k; try (eexists _, _; split; reflexivity).
        unfold __getattr__.
        destruct (has_normal_attribute dict_attribute s);
          [eexists _, _; split; reflexivity|].
        run_methods. destruct m as [|e m];
          [eexists _, _; split; reflexivity|].
        destruct (dict_get String.eqb s (e :: m)) as [key_name|];
          [|eexists _, _; split; reflexivity].
        destruct (dict_get py_eq key_name its);
          eexists _, _; split; reflexivity.
    + destruct k; try discriminate; run_methods;
        try (eexists _, _; split; reflexivity).
      destruct (hashable (VTuple xs)); eexists _, _; split; reflexivity.
  - intros k' Ek Hc. unfold __contains__, contains_attempt, dict___contains__.
    rewrite Ek. destruct w as [[its m] out]. cbn [self items] in Hc.
    run_methods. now rewrite Hc.
  - intros name k' v -> Hm Hi.
    unfold __contains__, contains_attempt, dict___contains__, hasattr.
    cbn [to_key].
    pose proof (getattr_registered dict_attribute name k' v w) as G.
    destruct w as [[its m] out]. run_methods.
    destruct (dict_contains py_eq (KStr name) its); [reflexivity|].
    destruct (has_normal_attribute dict_attribute name) eqn:Hn.
    + unfold __getattr__. rewrite Hn. reflexivity.
    + now rewrite (G eq_refl Hm Hi).
  - intro Ek. destruct w as [[its m] out].
    unfold __contains__, contains_attempt, dict___contains__, hasattr.
    rewrite Ek. destruct k; try discriminate; run_methods; try reflexivity.
    now destruct (hashable (VTuple xs)).
  - intros k' Ek Hs Hc. destruct w as [[its m] out]. cbn [self items] in Hc.
    unfold __contains__, contains_attempt, dict___contains__, hasattr.
    rewrite Ek. run_methods. rewrite Hc.
    destruct k; try reflexivity.
    cbn [to_key] in Ek. injection Ek as <-. discriminate.
  - intros name -> Hc Hn Hm Hg.
    pose proof (getattr_missing dict_attribute name w Hn Hm Hg) as G.
    destruct w as [[its m] out]. cbn [self items] in Hc.
    unfold __contains__, contains_attempt, dict___contains__, hasattr.
    cbn [to_key]. run_methods. rewrite Hc. now rewrite G.
  - intros e w' E. unfold __contains__. now rewrite E.
Qed.

(** The doctest object with [b["foo-:-bar"] = "y"]: the key and the
    name [foo_bar] are in it; the name [foo], the key [2] and an
    unhashable list are not. *)
Lemma contains_never_raises_witness :
  let w := mkWorld (mkDictObject [(KStr "foo-:-bar", VStr "y")]
                                 [("foo_bar", KStr "foo-:-bar")]) [] in
  __contains__ cpython_dict_attribute (VStr "foo-:-bar") w = (Ok true, w) /\
  __contains__ cpython_dict_attribute (VStr "foo_bar") w = (Ok true, w) /\
  __contains__ cpython_dict_attribute (VList []) w = (Ok false, w) /\
  __contains__ cpython_dict_attribute (VInt 2) w = (Ok false, w) /\
  __contains__ cpython_dict_attribute (VStr "foo") w = (Ok false, w).
Proof.
  intro w. split; [|split; [|split; [|split]]].
  - destruct (contains_never_raises cpython_dict_attribute (VStr "foo-:-bar") w)
      as (_ & A & _).
    apply (A (KStr "foo-:-bar")); reflexivity.
  - destruct (contains_never_raises cpython_dict_attribute (VStr "foo_bar") w)
      as (_ & _ & A & _).
    apply (A "foo_bar" (KStr "foo-:-bar") (VStr "y")); reflexivity.
  - destruct (contains_never_raises cpython_dict_attribute (VList []) w)
      as (_ & _ & _ & A & _).
    apply A. reflexivity.
  - destruct (contains_never_raises cpython_dict_attribute (VInt 2) w)
      as (_ & _ & _ & _ & A & _).
    apply (A (KInt 2)); reflexivity.
  - destruct (contains_never_raises cpython_dict_attribute (VStr "foo") w)
      as (_ & _ & _ & _ & _ & A & _).
    apply (A "foo"); try reflexivity; [discriminate|now left].
Defined.

(** C7 as stated fails for a key that is not a string: with the name
    [None] registered and its key in the store, the string form of
    the key [None] is a registered, resolvable name, but [None in b]
    is [False]: [hasattr] is given the key itself and raises
    [TypeError]. *)
Lemma contains_never_raises_counterexample :
  ~ (forall (dict_attribute : string -> bool) (k : value) (k0 k' : key)
            (v : value) (w : world),
       to_key k = Some k0 ->
       dict_get String.eqb (str k0) (_attribute_to_key_map (self w)) = Some k' ->
       dict_get py_eq k' (items (self w)) = Some v ->
       __contains__ dict_attribute k w = (Ok true, w)).
Proof.
  intro H.
  pose proof (H cpython_dict_attribute VNone KNone (KStr "None") (VInt 1)
                (mkWorld (mkDictObject [(KStr "None", VInt 1)]
                                       [("None", KStr "None")]) [])
                eq_refl eq_refl eq_refl) as C.
  discriminate.
Qed.

(** ** Attribute access to missing names *)

(** C6 (the code at the failing input).  On an object whose map is
    empty, as [DictObject()] is, [__getattr__] of a name that is
    neither an attribute of the class nor registered prints a message
    and returns [None]; no [AttributeError] is raised. *)
Theorem getattr_on_empty_map_returns_none :
  DictObject_ [] [] = Ok blank /\
  __getattr__ cpython_dict_attribute "foo" (mkWorld blank [])
  = (Ok (Item VNone),
     mkWorld blank ["_attribute_to_key_map not dofined."]) /\
  __contains__ cpython_dict_attribute (VStr "foo") (mkWorld blank [])
  = (Ok true, mkWorld blank ["_attribute_to_key_map not dofined."]).
Proof. repeat split. Qed.

(** ** Nested values *)

Lemma map_result_ok {A B : Type} (f : A -> result B) (l : list A) (ys : list B) :
  map_result f l = Ok ys -> forall x, In x l -> exists y, f x = Ok y.
Proof.
  revert ys. induction l as [|a l IH]; intros ys H x I; [destruct I|].
  simpl in H. destruct (f a) as [y| |] eqn:Fa; try discriminate.
  simpl in H. destruct (map_result f l) as [ys'| |]; try discriminate.
  destruct I as [<-|I]; eauto.
Qed.

(** [DictObject(x)] on a list or a tuple never returns: when
    [dict.__init__] accepts the sequence, [merge_dict] raises
    [TypeError]. *)
Lemma DictObject_new_sequence (x : value) (o : value) :
  isinstance_list_tuple x = true -> DictObject_new x <> Ok o.
Proof.
  intro Hx.
  assert (G : forall w, exists r w',
             __init__ DictObject_new [x] [] w = (r, w') /\ r <> Ok tt).
  { intro w. unfold __init__.
    unfold bind at 1.
    destruct (dict___init__ (Some x) [] w) as [[u|e|h] w1];
      try (eexists _, _; split; [reflexivity|discriminate]).
    destruct x; try discriminate; cbn;
      eexists _, _; (split; [reflexivity|discriminate]). }
  destruct (G (mkWorld blank [])) as (r & w' & E & N).
  destruct x; try discriminate; cbn [DictObject_new]; rewrite E;
    destruct r as [[]|e|h]; congruence.
Qed.

(** A list or tuple that has a list or tuple among its elements is not
    wrapped. *)
Lemma wrap_nested_sequence (xs : list value) (x : value) (o : value) :
  In x xs -> isinstance_list_tuple x = true ->
  wrap DictObject_new (VList xs) <> Ok o /\
  wrap DictObject_new (VTuple xs) <> Ok o.
Proof.
  intros I Hx.
  assert (G : forall ys, map_result (wrap_element DictObject_new) xs <> Ok ys).
  { intros ys H.
    destruct (map_result_ok _ _ _ H x I) as (y & Hy).
    unfold wrap_element in Hy. rewrite Hx, orb_true_r in Hy.
    now apply DictObject_new_sequence in Hy. }
  split; cbn [wrap];
    destruct (map_result (wrap_element DictObject_new) xs) as [ys| |] eqn:E;
    try discriminate; now destruct (G ys).
Qed.

(** A dict is wrapped into a [DictObject]. *)
Lemma wrap_dict_is_object (v o : value) :
  isinstance_dict v = true -> wrap DictObject_new v = Ok o ->
  exists its m, o = VObj its m.
Proof.
  destruct v; try discriminate; intros _; cbn [wrap DictObject_new];
    match goal with
    | |- context [__init__ ?f ?a ?k ?w] =>
        destruct (__init__ f a k w) as [[u|e|h] w']
    end; try discriminate;
    intro H; injection H as <-; unfold obj_value; eauto.
Qed.

(** Any other value is stored as it is. *)
Lemma wrap_scalar (v : value) :
  isinstance_dict v = false -> isinstance_list_tuple v = false ->
  wrap DictObject_new v = Ok v.
Proof. destruct v; simpl; congruence. Qed.

(** C5 (the code at the failing input).  Storing the list [[[1]]],
    whose element is itself a list, raises [TypeError] and stores
    nothing; a dict inside a list is wrapped. *)
Theorem nested_sequence_rejected :
  __setitem__ 1 (KStr "k") (VList [VList [VInt 1]]) (mkWorld blank [])
  = (Raise TypeError, mkWorld blank []) /\
  __setitem__ 1 (KStr "k") (VTuple [VTuple []]) (mkWorld blank [])
  = (Raise TypeError, mkWorld blank []) /\
  __setitem__ 1 (KStr "k") (VList [VDict [(KStr "q", VInt 1)]]) (mkWorld blank [])
  = (Ok tt,
     mkWorld (mkDictObject
                [(KStr "k", VList [VObj [(KStr "q", VInt 1)] [("q", KStr "q")]])]
                [("k", KStr "k")]) []).
Proof. repeat split. Qed.

(** ** Attribute assignment *)

Lemma setattr_run (name : string) (v wv : value) (w : world) :
  name <> "_attribute_to_key_map" ->
  wrap DictObject_new v = Ok wv ->
  let m := _attribute_to_key_map (self w) in
  let key_name := match dict_get String.eqb name m with
                  | Some k => k
                  | None => KStr name
                  end in
  __setattr__ name v w =
  (Ok tt,
   mkWorld
     (mkDictObject
        (dict_set py_eq key_name v
           (dict_set py_eq (KStr name) wv (items (self w))))
        (dict_set String.eqb name key_name m))
     (stdout w)).
Proof.
  destruct w as [[its m] out]. cbn [self items _attribute_to_key_map stdout].
  intros Hn Hw. unfold __setattr__, _add_to_object_part.
  apply String.eqb_neq in Hn. rewrite Hn. run_methods. rewrite Hw.
  now rewrite map_get_set_same.
Qed.

(** C4 (amended).  For a name other than [_attribute_to_key_map] that
    is registered to a key of the store, [__setattr__] completes when
    the value can be wrapped and
    - leaves the map and the output as they are: the registered key is
      reused;
    - keeps every key of the store at its place, the registered key
      among them, and adds at most one: the name itself, when it was
      not a key yet;
    - leaves the entries of all keys other than the registered key and
      the name as they are;
    - stores the wrapped value under the name, when the name is not the
      registered key;
    - stores the value under the registered key, for a value that
      wrapping leaves as it is. *)
Theorem setattr_registered (name : string) (k : key) (v wv : value) (w : world) :
  name <> "_attribute_to_key_map" ->
  dict_get String.eqb name (_attribute_to_key_map (self w)) = Some k ->
  dict_contains py_eq k (items (self w)) = true ->
  wrap DictObject_new v = Ok wv ->
  exists w',
    __setattr__ name v w = (Ok tt, w') /\
    _attribute_to_key_map (self w') = _attribute_to_key_map (self w) /\
    stdout w' = stdout w /\
    map fst (items (self w'))
    = map fst (dict_set py_eq (KStr name) wv (items (self w))) /\
    (dict_contains py_eq (KStr name) (items (self w)) = true ->
     map fst (items (self w')) = map fst (items (self w))) /\
    (forall k0, py_eq k k0 = false -> py_eq (KStr name) k0 = false ->
       dict_get py_eq k0 (items (self w')) = dict_get py_eq k0 (items (self w))) /\
    (py_eq k (KStr name) = false ->
     dict_get py_eq (KStr name) (items (self w')) = Some wv) /\
    (wv = v -> dict_get py_eq k (items (self w')) = Some v).
Proof.
  intros Hn Hm Hk Hw.
  pose proof (setattr_run name v wv w Hn Hw) as R. cbv zeta in R.
  rewrite Hm in R. rewrite (map_set_registered _ _ _ Hm) in R.
  eexists. split; [exact R|]. cbn [self items _attribute_to_key_map stdout].
  assert (Hk' : dict_contains py_eq k
                  (dict_set py_eq (KStr name) wv (items (self w))) = true).
  { rewrite (dict_contains_set py_eq py_eq_sym py_eq_trans), Hk.
    apply orb_true_r. }
  split; [reflexivity|]. split; [reflexivity|].
  split; [now apply dict_set_keys_present|].
  split.
  { intro Hc. rewrite dict_set_keys_present by assumption.
    now apply dict_set_keys_present. }
  split.
  { intros k0 N1 N2. now rewrite !items_get_set_other. }
  split.
  { intro N. rewrite items_get_set_other by assumption.
    apply items_get_set_same. }
  intros _. apply items_get_set_same.
Qed.

(** The doctest [b.foo_bar = "changed!"] on the name registered to the
    key [foo-:-bar]. *)
Lemma setattr_registered_witness :
  let w := mkWorld (mkDictObject [(KStr "foo-:-bar", VStr "y")]
                                 [("foo_bar", KStr "foo-:-bar")]) [] in
  exists w',
    __setattr__ "foo_bar" (VStr "changed!") w = (Ok tt, w') /\
    _attribute_to_key_map (self w') = [("foo_bar", KStr "foo-:-bar")] /\
    map fst (items (self w')) = [KStr "foo-:-bar"; KStr "foo_bar"] /\
    dict_get py_eq (KStr "foo_bar") (items (self w')) = Some (VStr "changed!") /\
    dict_get py_eq (KStr "foo-:-bar") (items (self w')) = Some (VStr "changed!").
Proof.
  intro w.
  destruct (setattr_registered "foo_bar" (KStr "foo-:-bar") (VStr "changed!")
              (VStr "changed!") w ltac:(discriminate) eq_refl eq_refl eq_refl)
    as (w' & R & Hm & _ & Hk & _ & _ & Hn & Hv).
  exists w'. split; [exact R|]. split; [exact Hm|]. split; [exact Hk|].
  split; [now apply Hn|now apply Hv].
Defined.

(** C4 as stated fails twice.  On the doctest
    [b.foo_bar = "changed!"] the name is registered to the key
    [foo-:-bar] and the assignment adds an entry under the key
    [foo_bar]: a new entry is created.  And after [b["x"] = 1] the
    assignment [b.x = {"y": 2}] leaves the plain dict under the
    registered key ["x"], not the [DictObject] made from it: the
    stored value is not the wrapped value. *)
Lemma setattr_registered_counterexample :
  ~ (forall (name : string) (k : key) (v wv : value) (w w' : world),
       dict_get String.eqb name (_attribute_to_key_map (self w)) = Some k ->
       wrap DictObject_new v = Ok wv ->
       __setattr__ name v w = (Ok tt, w') ->
       List.length (items (self w')) = List.length (items (self w)))
  /\
  ~ (forall (name : string) (k : key) (v wv : value) (w w' : world),
       name <> "_attribute_to_key_map" ->
       dict_get String.eqb name (_attribute_to_key_map (self w)) = Some k ->
       dict_contains py_eq k (items (self w)) = true ->
       wrap DictObject_new v = Ok wv ->
       __setattr__ name v w = (Ok tt, w') ->
       dict_get py_eq k (items (self w')) = Some wv).
Proof.
  split; intro H.
  - pose proof (H "foo_bar" (KStr "foo-:-bar") (VStr "changed!") (VStr "changed!")
                  (mkWorld (mkDictObject [(KStr "foo-:-bar", VStr "y")]
                                         [("foo_bar", KStr "foo-:-bar")]) [])
                  _ eq_refl eq_refl eq_refl) as L.
    discriminate.
  - pose proof (H "x" (KStr "x") (VDict [(KStr "y", VInt 2)])
                  (VObj [(KStr "y", VInt 2)] [("y", KStr "y")])
                  (mkWorld (mkDictObject [(KStr "x", VInt 1)]
                                         [("x", KStr "x")]) [])
                  _ ltac:(discriminate) eq_refl eq_refl eq_refl eq_refl) as G.
    discriminate.
Qed.

(** A dict given to [__setattr__] is stored as it is under the
    registered key; only the entry under the name itself would be a
    [DictObject]. *)
Lemma setattr_stores_unwrapped :
  __setattr__ "a" (VDict [(KStr "b", VInt 1)]) (mkWorld blank [])
  = (Ok tt,
     mkWorld (mkDictObject [(KStr "a", VDict [(KStr "b", VInt 1)])]
                           [("a", KStr "a")]) []).
Proof. reflexivity. Qed.

(** ** Registrations under colliding names *)

(** [__setitem__] changes the registration of the resolved name only;
    on a collision the derived name stays with the key that holds
    it. *)
Lemma setitem_keeps_registrations (fuel : nat) (k : key) (v : value)
    (w w' : world) :
  __setitem__ fuel k v w = (Ok tt, w') ->
  exists name u,
    get_attribute_name_by_key k = Ok name /\
    resolved_name fuel (_attribute_to_key_map (self w)) k = Ok u /\
    dict_get String.eqb u (_attribute_to_key_map (self w')) = Some k /\
    (forall n, n <> u ->
       dict_get String.eqb n (_attribute_to_key_map (self w'))
       = dict_get String.eqb n (_attribute_to_key_map (self w))) /\
    (forall holder,
       dict_get String.eqb name (_attribute_to_key_map (self w)) = Some holder ->
       py_eq holder k = false ->
       (List.length (_attribute_to_key_map (self w)) < fuel)%nat ->
       dict_get String.eqb name (_attribute_to_key_map (self w')) = Some holder
       /\ exists N, (1 <= N)%Z /\ u = candidate name N
                    /\ taken (_attribute_to_key_map (self w)) name k N = false
                    /\ forall j, (1 <= j < N)%Z ->
                         taken (_attribute_to_key_map (self w)) name k j = true).
Proof.
  intro H.
  destruct (setitem_inv _ _ _ _ _ H) as (name & u & wv & Hn & Hu & Hw).
  rewrite (setitem_run fuel k v w name u wv Hn Hu Hw) in H.
  injection H as <-. cbn [self _attribute_to_key_map].
  exists name, u. split; [assumption|]. split; [assumption|].
  split; [apply map_get_set_same|].
  split; [intros n N; apply map_get_set_other; congruence|].
  intros holder Hh He L.
  destruct (next_free_result (_attribute_to_key_map (self w)) name k)
    as (N & B & F & A & R).
  assert (E : u = candidate name N).
  { unfold resolved_name in Hu. rewrite Hn in Hu. cbn [rbind] in Hu.
    rewrite Hh, He in Hu. cbn [negb] in Hu. rewrite (R fuel L) in Hu.
    congruence. }
  split.
  - rewrite map_get_set_other; [assumption|].
    rewrite E. apply candidate_neq_name.
  - exists N. repeat split; auto. lia.
Qed.

(** [__setattr__] never moves a registered name to another key. *)
Lemma setattr_keeps_registrations (name : string) (v : value) (w w' : world) :
  name <> "_attribute_to_key_map" ->
  __setattr__ name v w = (Ok tt, w') ->
  forall n k, dict_get String.eqb n (_attribute_to_key_map (self w)) = Some k ->
              dict_get String.eqb n (_attribute_to_key_map (self w')) = Some k.
Proof.
  intros Hn H n k Hk.
  destruct (wrap DictObject_new v) as [wv|e|h] eqn:Hw.
  - pose proof (setattr_run name v wv w Hn Hw) as R. cbv zeta in R.
    rewrite R in H. injection H as <-. cbn [self _attribute_to_key_map].
    destruct (String.eqb_spec name n) as [->|N].
    + rewrite Hk. now rewrite map_get_set_same.
    + now rewrite map_get_set_other.
  - exfalso. revert H. unfold __setattr__, _add_to_object_part.
    apply String.eqb_neq in Hn. rewrite Hn.
    destruct w as [[its m] out]. run_methods. rewrite Hw. discriminate.
  - exfalso. revert H. unfold __setattr__, _add_to_object_part.
    apply String.eqb_neq in Hn. rewrite Hn.
    destruct w as [[its m] out]. run_methods. rewrite Hw. discriminate.
Qed.

(** ** Merging *)

(** One entry whose derived name is free, or held by an equal key, is
    merged as [__setitem__] sets it. *)
Lemma merge_entry_without_collision (fuel : nat) (a : key) (b : value)
    (w : world) (name : string) :
  get_attribute_name_by_key a = Ok name ->
  taken_by_other (_attribute_to_key_map (self w)) name a = false ->
  merge_dict DictObject_new (VDict [(a, b)]) w = __setitem__ fuel a b w.
Proof.
  destruct w as [[its m] out]. cbn [self _attribute_to_key_map].
  unfold taken_by_other. intros Hn Ht.
  unfold merge_dict, for_each, __setitem__, _add_to_object_part. cbn [fst snd].
  run_methods. rewrite Hn.
  destruct (dict_get String.eqb name m) as [holder|].
  - apply negb_false_iff in Ht. rewrite Ht. cbn [negb].
    destruct (wrap DictObject_new b) as [wv|e|h]; reflexivity.
  - destruct (wrap DictObject_new b) as [wv|e|h]; reflexivity.
Qed.

(** A loop whose body prints nothing prints nothing. *)
Lemma for_each_silent {A : Type} (body : A -> M unit) :
  (forall x w, stdout (snd (body x w)) = stdout w) ->
  forall l w, stdout (snd (for_each body l w)) = stdout w.
Proof.
  intros H l. induction l as [|x l IH]; intro w; [reflexivity|].
  cbn [for_each]. unfold bind. specialize (H x w).
  destruct (body x w) as [[u|e|h] w1]; cbn [snd] in *; auto.
  now rewrite IH.
Qed.

(** [merge_dict] prints nothing. *)
Lemma merge_dict_silent (d : value) (w : world) :
  stdout (snd (merge_dict DictObject_new d w)) = stdout w.
Proof.
  destruct d; try reflexivity; unfold merge_dict;
    apply for_each_silent; clear; intros [a b] [[i m] out];
    unfold _add_to_object_part; cbn [fst snd]; run_methods;
    (destruct (get_attribute_name_by_key a) as [name|e|h]; try reflexivity);
    destruct (wrap DictObject_new b) as [wv|e|h]; reflexivity.
Qed.

(** C2 (the code at the failing input).  Merging the dict
    [{"1": "a", 1: "b"}] into an empty object registers [int_1] for the
    last key and nothing for the first one, and prints nothing;
    setting the same entries in the same order with [__setitem__]
    keeps [int_1] for the first key, registers [int_1_1] for the second
    and prints the warning. *)
Theorem merge_differs_from_setitem :
  let d := [(KStr "1", VStr "a"); (KInt 1, VStr "b")] in
  merge_dict DictObject_new (VDict d) (mkWorld blank [])
  = (Ok tt, mkWorld (mkDictObject d [("int_1", KInt 1)]) []) /\
  for_each (fun ab => __setitem__ 2 (fst ab) (snd ab)) d (mkWorld blank [])
  = (Ok tt,
     mkWorld (mkDictObject d [("int_1", KStr "1"); ("int_1_1", KInt 1)])
             [warning (KInt 1) "int_1_1" "int_1" (KStr "1")]).
Proof. split; reflexivity. Qed.

(** C3 (the code at the failing input).  After [b["foo-:-bar"] = 1]
    the name [foo_bar] belongs to that key.  Merging
    [{"foo...bar": 2}], by [merge_dict] or by [+=], hands [foo_bar]
    over to the new key and registers no [foo_bar_1], so that
    [b.foo_bar] is [2]; [b["foo...bar"] = 2] leaves [foo_bar] with the
    first key. *)
Theorem merge_moves_registered_name :
  let w0 := mkWorld (mkDictObject [(KStr "foo-:-bar", VInt 1)]
                                  [("foo_bar", KStr "foo-:-bar")]) [] in
  let its := [(KStr "foo-:-bar", VInt 1); (KStr "foo...bar", VInt 2)] in
  let merged := mkWorld (mkDictObject its [("foo_bar", KStr "foo...bar")]) [] in
  __setitem__ 1 (KStr "foo-:-bar") (VInt 1) (mkWorld blank []) = (Ok tt, w0) /\
  merge_dict DictObject_new (VDict [(KStr "foo...bar", VInt 2)]) w0
  = (Ok tt, merged) /\
  __iadd__ (VDict [(KStr "foo...bar", VInt 2)]) w0 = (Ok tt, merged) /\
  __getattr__ cpython_dict_attribute "foo_bar" merged = (Ok (Item (VInt 2)), merged) /\
  __getattr__ cpython_dict_attribute "foo_bar_1" merged
  = (Raise (AttributeError "foo_bar_1"), merged) /\
  __setitem__ 2 (KStr "foo...bar") (VInt 2) w0
  = (Ok tt,
     mkWorld (mkDictObject its [("foo_bar", KStr "foo-:-bar");
                                ("foo_bar_1", KStr "foo...bar")])
             [warning (KStr "foo...bar") "foo_bar_1" "foo_bar" (KStr "foo-:-bar")]).
Proof. repeat split. Qed.

(* ================================================================== *)
(** * Further properties of the methods *)

(** ** Shape of derived names *)

Lemma isdigit_is_word (c : ascii) : isdigit c = true -> is_word c = true.
Proof.
  destruct c as [[] [] [] [] [] [] [] []]; vm_compute; congruence.
Qed.

Lemma string_forall_app (p : ascii -> bool) (s t : string) :
  string_forall p (s ++ t) = string_forall p s && string_forall p t.
Proof.
  induction s as [|c s IH]; simpl; [reflexivity|].
  now rewrite IH, andb_assoc.
Qed.

Lemma string_forall_impl (p q : ascii -> bool) (s : string) :
  (forall c, p c = true -> q c = true) ->
  string_forall p s = true -> string_forall q s = true.
Proof.
  intro H. induction s as [|c s IH]; simpl; [reflexivity|].
  intro E. apply andb_prop in E as [Ec Es]. now rewrite (H c Ec), IH.
Qed.

Lemma is_identifier_app (p t : string) :
  is_identifier p = true -> string_forall is_word t = true ->
  is_identifier (p ++ t) = true.
Proof.
  destruct p as [|c p]; [discriminate|].
  unfold is_identifier. cbn [append string_forall]. intros H T.
  apply andb_prop in H as [D W]. apply andb_prop in W as [Wc Wp].
  now rewrite D, Wc, string_forall_app, Wp, T.
Qed.

Lemma unallowed_sub_prefixed (p s : string) :
  is_identifier p = true ->
  is_identifier (unallowed_sub (p ++ s)) = true.
Proof.
  intro H. unfold unallowed_sub.
  assert (W : string_forall is_word p = true /\ p <> "").
  { destruct p as [|c p]; [discriminate|].
    unfold is_identifier in H. apply andb_prop in H as [_ W].
    split; [assumption|discriminate]. }
  destruct W as [W N]. rewrite sub_from_word_prefix by assumption.
  apply is_identifier_app; [assumption|apply sub_from_allowed].
Qed.

(** A derived name passes the test [is_identifier]. *)
Lemma derived_name_shape (k : key) (name : string) :
  get_attribute_name_by_key k = Ok name -> is_identifier name = true.
Proof.
  unfold get_attribute_name_by_key.
  destruct (str k) as [|c rest] eqn:E; [discriminate|].
  destruct (isdigit c) eqn:D.
  - intro H. injection H as <-.
    now apply (unallowed_sub_prefixed "int_" (String c rest)).
  - destruct (negb (isinstance_str k)).
    + intro H. injection H as <-.
      now apply (unallowed_sub_prefixed "data_" (String c rest)).
    + intro H. injection H as <-. unfold unallowed_sub. cbn [sub_from].
      destruct (is_word c) eqn:W.
      * unfold is_identifier. rewrite D. cbn [negb andb string_forall].
        now rewrite W, sub_from_allowed.
      * unfold is_identifier. cbn [string_forall].
        now rewrite sub_from_allowed.
Qed.

(** X1.  A derived name is shaped like an identifier: it is not
    empty, its first character is not a digit in the sense of
    [str.isdigit], and all its characters are matched by [\w]
    (letters, digits and the underscore). *)
Theorem derived_name_is_identifier (k : key) (name : string) :
  get_attribute_name_by_key k = Ok name ->
  exists c rest,
    name = String c rest /\ isdigit c = false /\
    string_forall is_word name = true.
Proof.
  intro H. apply derived_name_shape in H.
  destruct name as [|c rest]; [discriminate|].
  unfold is_identifier in H. apply andb_prop in H as [D W].
  apply negb_true_iff in D. exists c, rest. auto.
Qed.

Lemma derived_name_is_identifier_witness :
  exists c rest, "int_2abc345" = String c rest /\ isdigit c = false.
Proof.
  destruct (derived_name_is_identifier (KStr "2abc345") "int_2abc345" eq_refl)
    as (c & rest & E & D & _).
  exists c, rest. auto.
Defined.



Lemma uint_digits (d : Decimal.uint) :
  string_forall isdigit (NilEmpty.string_of_uint d) = true.
Proof. induction d; simpl; auto. Qed.

Lemma str_int_digits (z : Z) :
  (0 <= z)%Z -> string_forall isdigit (str_int z) = true.
Proof.
  unfold str_int. destruct z as [|p|p]; [reflexivity| |lia]. intros _.
  cbn [Z.to_int NilZero.string_of_int]. unfold NilZero.string_of_uint.
  destruct (Pos.to_uint p) eqn:E; try reflexivity;
    rewrite <- E; apply uint_digits.
Qed.

(** X3.  A non-negative integer [n] that [str] converts (below the
    interpreter's default limit of 4300 digits) and the string of its
    digits are different keys with the same derived name [int_n]: the
    collision that [__setitem__] resolves with suffixes. *)
Theorem integer_and_its_string_collide (z : Z) :
  (0 <= z < 10 ^ 4300)%Z ->
  get_attribute_name_by_key (KInt z) = Ok ("int_" ++ str_int z) /\
  get_attribute_name_by_key (KStr (str_int z)) = Ok ("int_" ++ str_int z) /\
  py_eq (KInt z) (KStr (str_int z)) = false.
Proof.
  intros [Hz _]. pose proof (str_int_digits z Hz) as D.
  assert (G : forall k, str k = str_int z ->
                get_attribute_name_by_key k = Ok ("int_" ++ str_int z)).
  { intros k Ek. unfold get_attribute_name_by_key. rewrite Ek.
    destruct (str_int z) as [|c rest] eqn:E;
      [now destruct (str_int_nonempty z)|].
    cbn [string_forall] in D. apply andb_prop in D as [Dc Dr].
    rewrite Dc. f_equal. apply unallowed_sub_allowed.
    rewrite string_forall_app. cbn [string_forall].
    rewrite (isdigit_is_word c Dc).
    now rewrite (string_forall_impl isdigit is_word rest isdigit_is_word Dr). }
  split; [now apply G|]. split; [now apply G|reflexivity].
Qed.

Lemma integer_and_its_string_collide_witness :
  get_attribute_name_by_key (KInt 1) = Ok "int_1" /\
  get_attribute_name_by_key (KStr "1") = Ok "int_1".
Proof.
  assert (B : (0 <= 1 < 10 ^ 4300)%Z).
  { split; [lia|]. apply Z.ltb_lt. vm_compute. reflexivity. }
  destruct (integer_and_its_string_collide 1 B) as (A1 & A2 & _).
  split; [exact A1|exact A2].
Defined.

(** ** Item assignment: what changes and what does not *)

Lemma next_free_is_candidate (fuel : nat) (m : list (string * key))
    (name : string) (k : key) :
  forall (i : Z) (u : string),
    next_free fuel m name k i = Ok u ->
    exists N, (i <= N)%Z /\ u = candidate name N /\ taken m name k N = false.
Proof.
  induction fuel as [|fuel IH]; intros i u H; [discriminate|].
  cbn [next_free] in H. fold (candidate name i) in H.
  destruct (dict_get String.eqb (candidate name i) m) as [k'|] eqn:G.
  - destruct (negb (py_eq k' k)) eqn:E.
    + destruct (IH _ _ H) as (N & B & -> & T). exists N.
      repeat split; auto. lia.
    + injection H as <-. exists i. repeat split; [lia|].
      unfold taken. now rewrite G.
  - injection H as <-. exists i. repeat split; [lia|].
    unfold taken. now rewrite G.
Qed.

Lemma next_free_ext (fuel : nat) (m m' : list (string * key)) (name : string)
    (k : key) :
  (forall j, taken m name k j = taken m' name k j) ->
  forall i, next_free fuel m name k i = next_free fuel m' name k i.
Proof.
  intro T. induction fuel as [|fuel IH]; intro i; [reflexivity|].
  cbn [next_free]. fold (candidate name i).
  specialize (T i). unfold taken in T.
  destruct (dict_get String.eqb (candidate name i) m) as [k1|],
           (dict_get String.eqb (candidate name i) m') as [k2|].
  - rewrite <- T. destruct (negb (py_eq k1 k)); [apply IH|reflexivity].
  - rewrite T. reflexivity.
  - rewrite <- T. reflexivity.
  - reflexivity.
Qed.

(** The resolved name is free for the key: unregistered, or registered
    to an equal key. *)
Lemma resolved_name_free (fuel : nat) (m : list (string * key)) (k : key)
    (u : string) :
  resolved_name fuel m k = Ok u ->
  forall k', dict_get String.eqb u m = Some k' -> py_eq k' k = true.
Proof.
  unfold resolved_name.
  destruct (get_attribute_name_by_key k) as [name| |]; try discriminate.
  cbn [rbind].
  destruct (dict_get String.eqb name m) as [holder|] eqn:G.
  - destruct (negb (py_eq holder k)) eqn:E.
    + intro H. destruct (next_free_is_candidate _ _ _ _ _ _ H)
        as (N & _ & -> & T).
      intros k' Hk. unfold taken in T. rewrite Hk in T.
      now apply negb_false_iff in T.
    + intro H. injection H as <-. intros k' Hk.
      rewrite G in Hk. injection Hk as <-. now apply negb_false_iff in E.
  - intro H. injection H as <-. intros k' Hk. congruence.
Qed.

(** X4.  [__setitem__] touches one entry and one registration: the
    entries of all other keys and the registrations of all other names
    are what they were; an existing key keeps its place, a new key
    goes last. *)
Theorem setitem_changes_one_entry (fuel : nat) (k : key) (v : value)
    (w w' : world) :
  __setitem__ fuel k v w = (Ok tt, w') ->
  exists u wv,
    resolved_name fuel (_attribute_to_key_map (self w)) k = Ok u /\
    wrap DictObject_new v = Ok wv /\
    (forall k0, py_eq k k0 = false ->
       dict_get py_eq k0 (items (self w')) = dict_get py_eq k0 (items (self w))) /\
    (forall n, n <> u ->
       dict_get String.eqb n (_attribute_to_key_map (self w'))
       = dict_get String.eqb n (_attribute_to_key_map (self w))) /\
    (dict_contains py_eq k (items (self w)) = true ->
       map fst (items (self w')) = map fst (items (self w))) /\
    (dict_contains py_eq k (items (self w)) = false ->
       items (self w') = (items (self w) ++ [(k, wv)])%list).
Proof.
  intro H.
  destruct (setitem_inv _ _ _ _ _ H) as (name & u & wv & Hn & Hu & Hw).
  rewrite (setitem_run fuel k v w name u wv Hn Hu Hw) in H.
  injection H as <-. cbn [self items _attribute_to_key_map].
  exists u, wv. split; [assumption|]. split; [assumption|].
  split; [intros k0 N; now apply items_get_set_other|].
  split; [intros n N; apply map_get_set_other; congruence|].
  split; [apply dict_set_keys_present|apply dict_set_absent].
Qed.

Lemma setitem_changes_one_entry_witness :
  let w := mkWorld (mkDictObject [(KStr "hello", VInt 42)]
                                 [("hello", KStr "hello")]) [] in
  exists w',
    __setitem__ 1 (KStr "bar") (VStr "created value") w = (Ok tt, w') /\
    dict_get py_eq (KStr "hello") (items (self w')) = Some (VInt 42) /\
    dict_get String.eqb "hello" (_attribute_to_key_map (self w'))
    = Some (KStr "hello").
Proof.
  intro w.
  destruct (__setitem__ 1 (KStr "bar") (VStr "created value") w)
    as [r w'] eqn:E.
  assert (Hr : r = Ok tt) by (vm_compute in E; congruence). subst r.
  destruct (setitem_changes_one_entry _ _ _ _ _ E)
    as (u & wv & Hu & _ & Fi & Fm & _).
  exists w'. split; [reflexivity|]. split.
  - now rewrite (Fi (KStr "hello") eq_refl).
  - vm_compute in Hu. injection Hu as <-.
    now rewrite (Fm "hello" ltac:(discriminate)).
Defined.

(** Registering the resolved name does not change which candidates
    are held by other keys, nor who holds the derived name. *)
Lemma resolved_name_stable (fuel : nat) (m : list (string * key)) (k : key)
    (name u : string) :
  get_attribute_name_by_key k = Ok name ->
  resolved_name fuel m k = Ok u ->
  resolved_name fuel (dict_set String.eqb u k m) k = Ok u /\
  collision_report (dict_set String.eqb u k m) k name u
  = collision_report m k name u.
Proof.
  intros Hn Hu. unfold resolved_name, collision_report in *.
  rewrite Hn in *. cbn [rbind] in *.
  destruct (dict_get String.eqb name m) as [holder|] eqn:G.
  - destruct (negb (py_eq holder k)) eqn:E.
    + destruct (next_free_is_candidate _ _ _ _ _ _ Hu) as (N & _ & -> & T).
      rewrite map_get_set_other by apply candidate_neq_name.
      rewrite G, E. split; [|reflexivity].
      rewrite <- Hu. symmetry. apply next_free_ext. intro j.
      unfold taken.
      destruct (Z.eq_dec j N) as [->|Nj].
      * rewrite map_get_set_same, py_eq_refl. exact T.
      * rewrite map_get_set_other; [reflexivity|].
        intro C. apply candidate_inj in C. congruence.
    + injection Hu as <-. rewrite map_get_set_same, py_eq_refl. now cbn.
  - injection Hu as <-. rewrite map_get_set_same, py_eq_refl. now cbn.
Qed.

(** X5.  Assigning to the same key again finds the same name again:
    the map stays as the first assignment left it, the key keeps its
    place in the store and gets the new wrapped value, and the call
    prints once more what the first call printed, so that a key living
    under a suffixed name is reported at each assignment. *)
Theorem setitem_again (fuel : nat) (k : key) (v v2 wv2 : value) (w w' : world) :
  __setitem__ fuel k v w = (Ok tt, w') ->
  wrap DictObject_new v2 = Ok wv2 ->
  exists (w'' : world) (printed : list string),
    __setitem__ fuel k v2 w' = (Ok tt, w'') /\
    _attribute_to_key_map (self w'') = _attribute_to_key_map (self w') /\
    map fst (items (self w'')) = map fst (items (self w')) /\
    dict_get py_eq k (items (self w'')) = Some wv2 /\
    stdout w' = (stdout w ++ printed)%list /\
    stdout w'' = (stdout w' ++ printed)%list.
Proof.
  intros H Hw2.
  destruct (setitem_inv _ _ _ _ _ H) as (name & u & wv & Hn & Hu & Hw).
  rewrite (setitem_run fuel k v w name u wv Hn Hu Hw) in H.
  injection H as <-.
  destruct (resolved_name_stable _ _ _ _ _ Hn Hu) as [Hu' Hr].
  pose proof (setitem_run fuel k v2
                (mkWorld
                   (mkDictObject
                      (dict_set py_eq k wv (items (self w)))
                      (dict_set String.eqb u k (_attribute_to_key_map (self w))))
                   (stdout w ++ collision_report
                                  (_attribute_to_key_map (self w)) k name u))
                name u wv2 Hn Hu' Hw2) as R2.
  eexists _, (collision_report (_attribute_to_key_map (self w)) k name u).
  split; [exact R2|].
  cbn [self items _attribute_to_key_map stdout].
  split; [apply map_set_registered, map_get_set_same|].
  split.
  { apply dict_set_keys_present.
    rewrite (dict_contains_set py_eq py_eq_sym py_eq_trans).
    now rewrite py_eq_refl. }
  split; [apply items_get_set_same|]. split; [reflexivity|].
  now rewrite Hr.
Qed.

(** [b["1"] = "a"; b[1] = "b"; b[1] = "c"]: the key [1] stays under
    [int_1_1] and the warning is printed a second time. *)
Lemma setitem_again_witness :
  let w := mkWorld (mkDictObject [(KStr "1", VStr "a")] [("int_1", KStr "1")]) [] in
  exists w' w'',
    __setitem__ 2 (KInt 1) (VStr "b") w = (Ok tt, w') /\
    __setitem__ 2 (KInt 1) (VStr "c") w' = (Ok tt, w'') /\
    _attribute_to_key_map (self w'')
    = [("int_1", KStr "1"); ("int_1_1", KInt 1)] /\
    stdout w'' = [warning (KInt 1) "int_1_1" "int_1" (KStr "1");
                  warning (KInt 1) "int_1_1" "int_1" (KStr "1")].
Proof.
  intro w.
  destruct (__setitem__ 2 (KInt 1) (VStr "b") w) as [r w'] eqn:E.
  assert (Hr : r = Ok tt) by (vm_compute in E; congruence). subst r.
  destruct (setitem_again 2 (KInt 1) (VStr "b") (VStr "c") (VStr "c") w w'
              E eq_refl) as (w'' & printed & R & Hm & _ & _ & P1 & P2).
  exists w', w''. split; [reflexivity|]. split; [exact R|].
  vm_compute in E. injection E as <-.
  split; [exact Hm|].
  subst w. cbn [stdout app] in P1. rewrite <- P1 in P2. exact P2.
Defined.

(** ** Every key of the store has a name *)

(** X6.  [__setitem__] keeps the invariant that every key of the store
    is found through some registered name: the new key is registered,
    and the name it takes was free or its own. *)
Theorem setitem_keeps_all_registered (fuel : nat) (k : key) (v : value)
    (w w' : world) :
  all_registered (self w) ->
  __setitem__ fuel k v w = (Ok tt, w') ->
  all_registered (self w').
Proof.
  intros I H.
  destruct (setitem_inv _ _ _ _ _ H) as (name & u & wv & Hn & Hu & Hw).
  rewrite (setitem_run fuel k v w name u wv Hn Hu Hw) in H.
  injection H as <-. unfold all_registered in *.
  cbn [self items _attribute_to_key_map]. intros k0 Hc.
  rewrite (dict_contains_set py_eq py_eq_sym py_eq_trans) in Hc.
  destruct (py_eq k k0) eqn:E.
  - exists u, k. split; [apply map_get_set_same|assumption].
  - cbn [orb] in Hc. destruct (I k0 Hc) as (n & k' & Hg & He).
    destruct (String.eqb_spec u n) as [<-|N].
    + pose proof (resolved_name_free _ _ _ _ Hu k' Hg) as F.
      rewrite py_eq_sym in F.
      now rewrite (py_eq_trans _ _ _ F He) in E.
    + exists n, k'. split; [|assumption].
      now rewrite map_get_set_other.
Qed.

Lemma blank_all_registered : all_registered blank.
Proof. intros k H. discriminate. Qed.

Lemma setitem_keeps_all_registered_witness :
  all_registered
    (mkDictObject [(KStr "1", VStr "a"); (KInt 1, VStr "b")]
                  [("int_1", KStr "1"); ("int_1_1", KInt 1)]).
Proof.
  apply (setitem_keeps_all_registered 2 (KInt 1) (VStr "b")
           (mkWorld (mkDictObject [(KStr "1", VStr "a")]
                                  [("int_1", KStr "1")]) [])
           (mkWorld (mkDictObject [(KStr "1", VStr "a"); (KInt 1, VStr "b")]
                                  [("int_1", KStr "1"); ("int_1_1", KInt 1)])
                    [warning (KInt 1) "int_1_1" "int_1" (KStr "1")]));
    [|reflexivity].
  apply (setitem_keeps_all_registered 1 (KStr "1") (VStr "a")
           (mkWorld blank [])
           (mkWorld (mkDictObject [(KStr "1", VStr "a")]
                                  [("int_1", KStr "1")]) []));
    [exact blank_all_registered|reflexivity].
Defined.

(** ** Deleting from dictionaries *)

Section DictDelete.
Context {K V : Type}.
Variable eqb : K -> K -> bool.
Hypothesis eqb_refl : forall k, eqb k k = true.
Hypothesis eqb_sym : forall a b, eqb a b = eqb b a.
Hypothesis eqb_trans :
  forall a b c, eqb a b = true -> eqb b c = true -> eqb a c = true.

Lemma dict_contains_cons (k k0 : K) (v : V) (d : list (K * V)) :
  dict_contains eqb k0 ((k, v) :: d) = eqb k k0 || dict_contains eqb k0 d.
Proof. unfold dict_contains. simpl. now destruct (eqb k k0). Qed.

Lemma dict_contains_equal (a b : K) (d : list (K * V)) :
  eqb a b = true -> dict_contains eqb a d = dict_contains eqb b d.
Proof.
  intro E. induction d as [|[k v] d IH]; [reflexivity|].
  rewrite !dict_contains_cons, IH. f_equal.
  destruct (eqb k a) eqn:Ea, (eqb k b) eqn:Eb; auto.
  - now rewrite (eqb_trans _ _ _ Ea E) in Eb.
  - rewrite eqb_sym in E. now rewrite (eqb_trans _ _ _ Eb E) in Ea.
Qed.

Lemma dict_get_del_other (k k0 : K) (d : list (K * V)) :
  eqb k k0 = false ->
  dict_get eqb k0 (dict_del eqb k d) = dict_get eqb k0 d.
Proof.
  intro N. induction d as [|[k' v'] d IH]; simpl; [reflexivity|].
  destruct (eqb k' k) eqn:E; simpl.
  - destruct (eqb k' k0) eqn:E0; auto.
    rewrite eqb_sym in E. now rewrite (eqb_trans _ _ _ E E0) in N.
  - now rewrite IH.
Qed.

Lemma dict_contains_del_other (k k0 : K) (d : list (K * V)) :
  eqb k k0 = false ->
  dict_contains eqb k0 (dict_del eqb k d) = dict_contains eqb k0 d.
Proof. intro N. unfold dict_contains. now rewrite dict_get_del_other. Qed.

Lemma dict_contains_del_same (k : K) (d : list (K * V)) :
  dict_distinct eqb d = true -> dict_contains eqb k (dict_del eqb k d) = false.
Proof.
  induction d as [|[k' v'] d IH]; [reflexivity|].
  cbn [dict_distinct dict_del]. intro H. apply andb_prop in H as [N D].
  apply negb_true_iff in N.
  destruct (eqb k' k) eqn:E.
  - now rewrite <- (dict_contains_equal _ _ d E).
  - now rewrite dict_contains_cons, E, IH.
Qed.

Lemma dict_del_last (k : K) (v : V) (d : list (K * V)) :
  dict_contains eqb k d = false -> dict_del eqb k (d ++ [(k, v)]) = d.
Proof.
  induction d as [|[k' v'] d IH]; simpl.
  - now rewrite eqb_refl.
  - rewrite dict_contains_cons. intro H. apply orb_false_elim in H as [E C].
    now rewrite E, IH.
Qed.

Lemma dict_set_last (k : K) (v v' : V) (d : list (K * V)) :
  dict_contains eqb k d = false ->
  dict_set eqb k v' (d ++ [(k, v)]) = (d ++ [(k, v')])%list.
Proof.
  induction d as [|[k1 v1] d IH]; simpl.
  - now rewrite eqb_refl.
  - rewrite dict_contains_cons. intro H. apply orb_false_elim in H as [E C].
    now rewrite E, IH.
Qed.

Lemma dict_distinct_set (k : K) (v : V) (d : list (K * V)) :
  dict_distinct eqb d = true -> dict_distinct eqb (dict_set eqb k v d) = true.
Proof.
  induction d as [|[k' v'] d IH]; [reflexivity|].
  cbn [dict_distinct dict_set]. intro H. apply andb_prop in H as [N D].
  destruct (eqb k' k) eqn:E; cbn [dict_distinct].
  - now rewrite N, D.
  - rewrite (dict_contains_set eqb eqb_sym eqb_trans).
    rewrite eqb_sym, E. cbn [orb]. now rewrite N, IH.
Qed.
End DictDelete.

Lemma map_contains_del_same (name : string) (m : list (string * key)) :
  dict_distinct String.eqb m = true ->
  dict_get String.eqb name (dict_del String.eqb name m) = None.
Proof.
  intro D.
  pose proof (dict_contains_del_same String.eqb String.eqb_sym
                (fun a b c => ltac:(rewrite !String.eqb_eq; congruence))
                name m D) as H.
  unfold dict_contains in H.
  now destruct (dict_get String.eqb name (dict_del String.eqb name m)).
Qed.

Lemma map_get_del_other (name name0 : string) (m : list (string * key)) :
  name <> name0 ->
  dict_get String.eqb name0 (dict_del String.eqb name m)
  = dict_get String.eqb name0 m.
Proof.
  intro N. apply dict_get_del_other.
  - apply String.eqb_sym.
  - intros a b c. rewrite !String.eqb_eq. congruence.
  - now apply String.eqb_neq.
Qed.

(** ** Containment after an assignment *)

Lemma contains_store_key (dict_attribute : string -> bool) (k : key) (w : world) :
  dict_contains py_eq k (items (self w)) = true ->
  __contains__ dict_attribute (of_key k) w = (Ok true, w).
Proof.
  destruct w as [[its m] out]. cbn [self items]. intro Hc.
  unfold __contains__, contains_attempt, dict___contains__.
  assert (E : to_key (of_key k) = Some k) by now destruct k.
  rewrite E. run_methods. now rewrite Hc.
Qed.

(** X7.  After [b[k] = v] the key is in the object, and after
    [b.name = v] the name is: [k in b] and [name in b] are true and
    print nothing. *)
Theorem contains_after_assignment (dict_attribute : string -> bool) :
  (forall fuel k v w w',
     __setitem__ fuel k v w = (Ok tt, w') ->
     __contains__ dict_attribute (of_key k) w' = (Ok true, w')) /\
  (forall name v w w',
     name <> "_attribute_to_key_map" ->
     __setattr__ name v w = (Ok tt, w') ->
     __contains__ dict_attribute (VStr name) w' = (Ok true, w')).
Proof.
  split.
  - intros fuel k v w w' H. apply contains_store_key.
    destruct (setitem_inv _ _ _ _ _ H) as (name & u & wv & Hn & Hu & Hw).
    rewrite (setitem_run fuel k v w name u wv Hn Hu Hw) in H.
    injection H as <-. cbn [self items].
    rewrite (dict_contains_set py_eq py_eq_sym py_eq_trans).
    now rewrite py_eq_refl.
  - intros name v w w' Hn H.
    apply (contains_store_key dict_attribute (KStr name)).
    destruct (wrap DictObject_new v) as [wv|e|h] eqn:Hw.
    + pose proof (setattr_run name v wv w Hn Hw) as R. cbv zeta in R.
      rewrite R in H. injection H as <-. cbn [self items].
      rewrite !(dict_contains_set py_eq py_eq_sym py_eq_trans).
      rewrite (py_eq_refl (KStr name)). apply orb_true_r.
    + exfalso. revert H. unfold __setattr__, _add_to_object_part.
      apply String.eqb_neq in Hn. rewrite Hn.
      destruct w as [[its m] out]. run_methods. rewrite Hw. discriminate.
    + exfalso. revert H. unfold __setattr__, _add_to_object_part.
      apply String.eqb_neq in Hn. rewrite Hn.
      destruct w as [[its m] out]. run_methods. rewrite Hw. discriminate.
Qed.

(** The doctests [b[None] = 123; None in b] and
    [b.hello = 'hai'; 'hello' in b]. *)
Lemma contains_after_assignment_witness :
  let w1 := mkWorld (mkDictObject [(KNone, VInt 123)] [("data_None", KNone)]) [] in
  let w2 := mkWorld (mkDictObject [(KStr "hello", VStr "hai")]
                                  [("hello", KStr "hello")]) [] in
  __contains__ cpython_dict_attribute VNone w1 = (Ok true, w1) /\
  __contains__ cpython_dict_attribute (VStr "hello") w2 = (Ok true, w2).
Proof.
  intros w1 w2.
  destruct (contains_after_assignment cpython_dict_attribute) as [A B].
  split.
  - apply (A 1%nat KNone (VInt 123) (mkWorld blank []) w1). reflexivity.
  - apply (B "hello" (VStr "hai") (mkWorld blank []) w2);
      [discriminate|reflexivity].
Defined.

(** ** Attribute assignment read back *)

(** X8.  After [b.name = v] completes, the name is registered to the
    key it was registered to before, or to the name itself when it was
    not registered, and no other registration changes; item access with
    that key and [b.name] return the value as it was given (not its
    wrapped form), while a name that the normal attribute lookup finds
    gives the attribute of the class. *)
Theorem setattr_then_getattr (dict_attribute : string -> bool) (name : string)
    (v : value) (w w' : world) :
  name <> "_attribute_to_key_map" ->
  __setattr__ name v w = (Ok tt, w') ->
  exists k,
    k = match dict_get String.eqb name (_attribute_to_key_map (self w)) with
        | Some k0 => k0
        | None => KStr name
        end /\
    _attribute_to_key_map (self w')
    = dict_set String.eqb name k (_attribute_to_key_map (self w)) /\
    dict_get String.eqb name (_attribute_to_key_map (self w')) = Some k /\
    (forall n, n <> name ->
       dict_get String.eqb n (_attribute_to_key_map (self w'))
       = dict_get String.eqb n (_attribute_to_key_map (self w))) /\
    dict___getitem__ k w' = (Ok v, w') /\
    (has_normal_attribute dict_attribute name = false ->
     __getattr__ dict_attribute name w' = (Ok (Item v), w')) /\
    (has_normal_attribute dict_attribute name = true ->
     __getattr__ dict_attribute name w' = (Ok (ClassAttribute name), w')).
Proof.
  intros Hn H. destruct w as [[its m] out].
  cbn [self items _attribute_to_key_map].
  destruct (wrap DictObject_new v) as [wv|e|h] eqn:Hw.
  - pose proof (setattr_run name v wv
                  (mkWorld (mkDictObject its m) out) Hn Hw) as R.
    cbv zeta in R. rewrite R in H. injection H as <-. clear R.
    cbn [self items _attribute_to_key_map stdout].
    set (k := match dict_get String.eqb name m
              with Some k => k | None => KStr name end).
    exists k.
    assert (Hm : dict_get String.eqb name (dict_set String.eqb name k m)
                 = Some k) by apply map_get_set_same.
    assert (Hi : dict_get py_eq k
                   (dict_set py_eq k v (dict_set py_eq (KStr name) wv its))
                 = Some v) by apply items_get_set_same.
    split; [reflexivity|]. split; [reflexivity|]. split; [exact Hm|].
    split; [intros n N; apply map_get_set_other; congruence|].
    split; [|split].
    + run_methods. now rewrite Hi.
    + intro Hc. now apply getattr_registered with (k := k).
    + intro Hc. unfold __getattr__. rewrite Hc. reflexivity.
  - exfalso. revert H. unfold __setattr__, _add_to_object_part.
    apply String.eqb_neq in Hn. rewrite Hn.
    run_methods. rewrite Hw. discriminate.
  - exfalso. revert H. unfold __setattr__, _add_to_object_part.
    apply String.eqb_neq in Hn. rewrite Hn.
    run_methods. rewrite Hw. discriminate.
Qed.

(** [b.foo_bar = "changed!"] on the doctest object: the name stays with
    the key [foo-:-bar], and that key and [b.foo_bar] give the new
    value. *)
Lemma setattr_then_getattr_witness :
  let w := mkWorld (mkDictObject [(KStr "foo-:-bar", VStr "y")]
                                 [("foo_bar", KStr "foo-:-bar")]) [] in
  exists w',
    __setattr__ "foo_bar" (VStr "changed!") w = (Ok tt, w') /\
    dict_get String.eqb "foo_bar" (_attribute_to_key_map (self w'))
    = Some (KStr "foo-:-bar") /\
    dict___getitem__ (KStr "foo-:-bar") w' = (Ok (VStr "changed!"), w') /\
    __getattr__ cpython_dict_attribute "foo_bar" w'
    = (Ok (Item (VStr "changed!")), w').
Proof.
  intro w.
  destruct (__setattr__ "foo_bar" (VStr "changed!") w) as [r w'] eqn:E.
  assert (Hr : r = Ok tt) by (vm_compute in E; congruence). subst r.
  destruct (setattr_then_getattr cpython_dict_attribute "foo_bar"
              (VStr "changed!") w w' ltac:(discriminate) E)
    as (k & Hk & _ & Hm & _ & Hi & Ha & _).
  vm_compute in Hk. subst k.
  exists w'. split; [reflexivity|]. split; [exact Hm|]. split; [exact Hi|].
  apply Ha. reflexivity.
Defined.

(** ** Deleting items and attributes *)

Lemma delitem_run (k : key) (name : string) (w : world) :
  get_attribute_name_by_key k = Ok name ->
  __delitem__ k w =
  if dict_contains String.eqb name (_attribute_to_key_map (self w)) then
    let m' := dict_del String.eqb name (_attribute_to_key_map (self w)) in
    if dict_contains py_eq k (items (self w)) then
      (Ok tt, mkWorld (mkDictObject (dict_del py_eq k (items (self w))) m')
                      (stdout w))
    else (Raise KeyError, mkWorld (mkDictObject (items (self w)) m') (stdout w))
  else (Raise KeyError, w).
Proof.
  destruct w as [[its m] out]. intro Hn. unfold __delitem__.
  run_methods. rewrite Hn.
  destruct (dict_contains String.eqb name m); [|reflexivity].
  now destruct (dict_contains py_eq k its).
Qed.

(** X9.  Setting a new key whose derived name is free and deleting it
    again gives back the object exactly as it was. *)
Theorem setitem_then_delitem (fuel : nat) (k : key) (v wv : value)
    (name : string) (w : world) :
  get_attribute_name_by_key k = Ok name ->
  dict_contains py_eq k (items (self w)) = false ->
  dict_contains String.eqb name (_attribute_to_key_map (self w)) = false ->
  wrap DictObject_new v = Ok wv ->
  (__setitem__ fuel k v ;;; __delitem__ k)%M w = (Ok tt, w).
Proof.
  intros Hn Hk Hm Hw.
  assert (Hu : resolved_name fuel (_attribute_to_key_map (self w)) k = Ok name).
  { unfold resolved_name. rewrite Hn. cbn [rbind].
    unfold dict_contains in Hm.
    now destruct (dict_get String.eqb name (_attribute_to_key_map (self w))). }
  unfold bind at 1.
  rewrite (setitem_run fuel k v w name name wv Hn Hu Hw).
  rewrite (delitem_run k name _ Hn).
  cbn [self items _attribute_to_key_map stdout].
  rewrite (dict_set_absent String.eqb name k _ Hm).
  rewrite (dict_set_absent py_eq k wv _ Hk).
  assert (C1 : dict_contains String.eqb name
                 (_attribute_to_key_map (self w) ++ [(name, k)]) = true).
  { rewrite <- (dict_set_absent String.eqb name k _ Hm).
    unfold dict_contains. now rewrite map_get_set_same. }
  assert (C2 : dict_contains py_eq k (items (self w) ++ [(k, wv)]) = true).
  { rewrite <- (dict_set_absent py_eq k wv _ Hk).
    unfold dict_contains. now rewrite items_get_set_same. }
  rewrite C1, C2. cbv zeta.
  rewrite (dict_del_last String.eqb String.eqb_refl name k _ Hm).
  rewrite (dict_del_last py_eq py_eq_refl k wv _ Hk).
  unfold collision_report. unfold dict_contains in Hm.
  destruct (dict_get String.eqb name (_attribute_to_key_map (self w)));
    [discriminate|].
  rewrite app_nil_r. now destruct w as [[its m] out].
Qed.

Lemma setitem_then_delitem_witness :
  let w := mkWorld (mkDictObject [(KStr "hello", VInt 42)]
                                 [("hello", KStr "hello")]) [] in
  (__setitem__ 1 (KStr "bar") (VStr "created value") ;;;
   __delitem__ (KStr "bar"))%M w = (Ok tt, w).
Proof.
  intro w.
  apply (setitem_then_delitem 1 (KStr "bar") (VStr "created value")
           (VStr "created value") "bar" w); reflexivity.
Defined.

(** X10.  [__delitem__] deletes the registration of the derived name,
    whoever holds it.  After a collision put the key under a suffixed
    name, deleting the key takes the derived name away from the other
    key, which stays in the store, and leaves the suffixed name
    registered to the deleted key, so that reading it raises
    [AttributeError]. *)
Theorem delitem_after_collision (fuel : nat) (k holder : key) (v : value)
    (name : string) (w w' : world) :
  dict_distinct py_eq (items (self w)) = true ->
  dict_distinct String.eqb (_attribute_to_key_map (self w)) = true ->
  get_attribute_name_by_key k = Ok name ->
  dict_get String.eqb name (_attribute_to_key_map (self w)) = Some holder ->
  py_eq holder k = false ->
  __setitem__ fuel k v w = (Ok tt, w') ->
  exists (u : string) (w'' : world),
    u <> name /\
    dict_get String.eqb u (_attribute_to_key_map (self w')) = Some k /\
    __delitem__ k w' = (Ok tt, w'') /\
    dict_contains py_eq k (items (self w'')) = false /\
    dict_get py_eq holder (items (self w''))
    = dict_get py_eq holder (items (self w)) /\
    dict_get String.eqb name (_attribute_to_key_map (self w'')) = None /\
    dict_get String.eqb u (_attribute_to_key_map (self w'')) = Some k /\
    (forall dict_attribute,
       has_normal_attribute dict_attribute u = false ->
       __getattr__ dict_attribute u w'' = (Raise (AttributeError u), w'')).
Proof.
  intros Di Dm Hn Hh He H.
  destruct (setitem_inv _ _ _ _ _ H) as (name' & u & wv & Hn' & Hu & Hw).
  rewrite Hn in Hn'. injection Hn' as <-.
  rewrite (setitem_run fuel k v w name u wv Hn Hu Hw) in H.
  injection H as <-.
  assert (Nu : u <> name).
  { unfold resolved_name in Hu. rewrite Hn in Hu. cbn [rbind] in Hu.
    rewrite Hh, He in Hu. cbn [negb] in Hu.
    destruct (next_free_is_candidate _ _ _ _ _ _ Hu) as (N & _ & -> & _).
    apply candidate_neq_name. }
  set (m := _attribute_to_key_map (self w)) in *.
  set (its := items (self w)) in *.
  assert (Cn : dict_contains String.eqb name (dict_set String.eqb u k m) = true).
  { unfold dict_contains. rewrite map_get_set_other by assumption.
    now rewrite Hh. }
  assert (Ck : dict_contains py_eq k (dict_set py_eq k wv its) = true).
  { unfold dict_contains. now rewrite items_get_set_same. }
  exists u. eexists. split; [assumption|].
  split; [apply map_get_set_same|].
  split.
  { rewrite (delitem_run k name _ Hn).
    cbn [self items _attribute_to_key_map stdout].
    rewrite Cn, Ck. reflexivity. }
  cbn [self items _attribute_to_key_map stdout].
  assert (Hstale : dict_get String.eqb u
                     (dict_del String.eqb name (dict_set String.eqb u k m))
                   = Some k).
  { rewrite map_get_del_other by congruence. apply map_get_set_same. }
  assert (Hgone : dict_contains py_eq k
                    (dict_del py_eq k (dict_set py_eq k wv its)) = false).
  { apply (dict_contains_del_same py_eq py_eq_sym py_eq_trans).
    now apply (dict_distinct_set py_eq py_eq_sym py_eq_trans). }
  split; [exact Hgone|]. split.
  { rewrite py_eq_sym in He.
    rewrite (dict_get_del_other py_eq py_eq_sym py_eq_trans) by assumption.
    now apply items_get_set_other. }
  split.
  { apply map_contains_del_same.
    apply (dict_distinct_set String.eqb String.eqb_sym); [|assumption].
    intros a b c. rewrite !String.eqb_eq. congruence. }
  split; [exact Hstale|].
  intros dict_attribute Hc. apply getattr_missing; [assumption| |].
  - cbn [self _attribute_to_key_map]. intro E. rewrite E in Hstale.
    discriminate.
  - right. exists k. cbn [self items _attribute_to_key_map].
    split; [exact Hstale|]. unfold dict_contains in Hgone.
    now destruct (dict_get py_eq k (dict_del py_eq k (dict_set py_eq k wv its))).
Qed.

(** [b["1"] = "a"; b[1] = "b"; del b[1]]: the name [int_1] of the key
    ["1"] is gone and [int_1_1] dangles. *)
Lemma delitem_after_collision_witness :
  let w := mkWorld (mkDictObject [(KStr "1", VStr "a")] [("int_1", KStr "1")]) [] in
  exists w' w'',
    __setitem__ 2 (KInt 1) (VStr "b") w = (Ok tt, w') /\
    __delitem__ (KInt 1) w' = (Ok tt, w'') /\
    dict_get String.eqb "int_1" (_attribute_to_key_map (self w'')) = None /\
    dict_get py_eq (KStr "1") (items (self w'')) = Some (VStr "a").
Proof.
  intro w.
  destruct (__setitem__ 2 (KInt 1) (VStr "b") w) as [r w'] eqn:E.
  assert (Hr : r = Ok tt) by (vm_compute in E; congruence). subst r.
  destruct (delitem_after_collision 2 (KInt 1) (KStr "1") (VStr "b") "int_1"
              w w' eq_refl eq_refl eq_refl eq_refl eq_refl E)
    as (u & w'' & _ & _ & D & _ & Hh & Hn & _).
  exists w', w''. split; [reflexivity|]. split; [exact D|].
  split; [exact Hn|]. rewrite Hh. reflexivity.
Defined.

(** X11.  A failing [__delitem__]: when the derived name of the key is
    not registered, [KeyError] leaves the object as it is; when the
    name is registered (to whatever key) but the key is not in the
    store, [KeyError] is raised after the registration was deleted, so
    that the store is unchanged and the name is lost. *)
Theorem delitem_failure (k : key) (name : string) (w : world) :
  get_attribute_name_by_key k = Ok name ->
  dict_contains py_eq k (items (self w)) = false ->
  dict_distinct String.eqb (_attribute_to_key_map (self w)) = true ->
  exists w',
    __delitem__ k w = (Raise KeyError, w') /\
    items (self w') = items (self w) /\
    stdout w' = stdout w /\
    dict_get String.eqb name (_attribute_to_key_map (self w')) = None /\
    (forall n, n <> name ->
       dict_get String.eqb n (_attribute_to_key_map (self w'))
       = dict_get String.eqb n (_attribute_to_key_map (self w))) /\
    (dict_contains String.eqb name (_attribute_to_key_map (self w)) = false ->
     w' = w).
Proof.
  intros Hn Hk D. rewrite (delitem_run k name w Hn), Hk. cbv zeta.
  destruct (dict_contains String.eqb name (_attribute_to_key_map (self w)))
    eqn:C; eexists; (split; [reflexivity|]);
    cbn [self items _attribute_to_key_map stdout].
  - split; [reflexivity|]. split; [reflexivity|].
    split; [now apply map_contains_del_same|].
    split; [intros n N; apply map_get_del_other; congruence|discriminate].
  - split; [reflexivity|]. split; [reflexivity|].
    split.
    { unfold dict_contains in C.
      now destruct (dict_get String.eqb name (_attribute_to_key_map (self w))). }
    split; reflexivity.
Qed.

(** [del b[1]] on an object that holds the key ["1"] only: [KeyError],
    and [int_1] is no longer registered. *)
Lemma delitem_failure_witness :
  let w := mkWorld (mkDictObject [(KStr "1", VStr "a")] [("int_1", KStr "1")]) [] in
  __delitem__ (KInt 1) w
  = (Raise KeyError, mkWorld (mkDictObject [(KStr "1", VStr "a")] []) []).
Proof.
  intro w.
  destruct (delitem_failure (KInt 1) "int_1" w eq_refl eq_refl eq_refl)
    as (w' & R & _). rewrite R. vm_compute in R. congruence.
Defined.

(** X12.  [__delattr__] either deletes the entry of the registered key
    and the registration of the name, or raises [KeyError] (name not
    registered, or its key not in the store) and leaves the object as
    it is. *)
Theorem delattr_outcome (name : string) (w w' : world) (r : result unit) :
  __delattr__ name w = (r, w') ->
  (r = Raise KeyError /\ w' = w /\
   (dict_get String.eqb name (_attribute_to_key_map (self w)) = None
    \/ exists k,
         dict_get String.eqb name (_attribute_to_key_map (self w)) = Some k
         /\ dict_contains py_eq k (items (self w)) = false))
  \/ (r = Ok tt /\
      exists k,
        dict_get String.eqb name (_attribute_to_key_map (self w)) = Some k /\
        dict_contains py_eq k (items (self w)) = true /\
        w' = mkWorld
               (mkDictObject
                  (dict_del py_eq k (items (self w)))
                  (dict_del String.eqb name (_attribute_to_key_map (self w))))
               (stdout w)).
Proof.
  destruct w as [[its m] out]. unfold __delattr__. run_methods.
  destruct (dict_get String.eqb name m) as [k|] eqn:G.
  - destruct (dict_contains py_eq k its) eqn:C.
    + unfold dict_contains. rewrite G. intro H. injection H as <- <-.
      right. split; [reflexivity|]. exists k. auto.
    + intro H. injection H as <- <-. left.
      split; [reflexivity|]. split; [reflexivity|]. right. exists k. auto.
  - intro H. injection H as <- <-. left. auto.
Qed.

(** [del b.foo_bar] on the doctest object deletes the key
    [foo-:-bar]. *)
Lemma delattr_outcome_witness :
  __delattr__ "foo_bar"
    (mkWorld (mkDictObject [(KStr "foo-:-bar", VStr "y")]
                           [("foo_bar", KStr "foo-:-bar")]) [])
  = (Ok tt, mkWorld blank []).
Proof.
  destruct (__delattr__ "foo_bar"
              (mkWorld (mkDictObject [(KStr "foo-:-bar", VStr "y")]
                                     [("foo_bar", KStr "foo-:-bar")]) []))
    as [r w'] eqn:E.
  destruct (delattr_outcome _ _ _ _ E) as [(-> & -> & _)|(-> & k & G & _ & ->)].
  - vm_compute in E. discriminate.
  - vm_compute in G. injection G as <-. reflexivity.
Defined.

(** X13.  Setting an attribute whose name is neither registered nor a
    key of the store, and deleting it again, gives back the object
    exactly as it was. *)
Theorem setattr_then_delattr (name : string) (v wv : value) (w : world) :
  name <> "_attribute_to_key_map" ->
  dict_contains String.eqb name (_attribute_to_key_map (self w)) = false ->
  dict_contains py_eq (KStr name) (items (self w)) = false ->
  wrap DictObject_new v = Ok wv ->
  (__setattr__ name v ;;; __delattr__ name)%M w = (Ok tt, w).
Proof.
  intros Hn Hm Hk Hw. unfold bind at 1.
  pose proof (setattr_run name v wv w Hn Hw) as R. cbv zeta in R.
  rewrite R. clear R.
  assert (G : dict_get String.eqb name (_attribute_to_key_map (self w)) = None).
  { unfold dict_contains in Hm.
    now destruct (dict_get String.eqb name (_attribute_to_key_map (self w))). }
  rewrite G.
  rewrite (dict_set_absent py_eq (KStr name) wv _ Hk).
  rewrite (dict_set_last py_eq py_eq_refl (KStr name) wv v _ Hk).
  rewrite (dict_set_absent String.eqb name (KStr name) _ Hm).
  destruct w as [[its m] out].
  cbn [self items _attribute_to_key_map stdout] in *.
  unfold __delattr__. run_methods.
  assert (G1 : dict_get String.eqb name (m ++ [(name, KStr name)])
               = Some (KStr name)).
  { rewrite <- (dict_set_absent String.eqb name (KStr name) _ Hm).
    apply map_get_set_same. }
  assert (C1 : dict_contains py_eq (KStr name) (its ++ [(KStr name, v)]) = true).
  { rewrite <- (dict_set_absent py_eq (KStr name) v _ Hk).
    unfold dict_contains. now rewrite items_get_set_same. }
  rewrite G1, C1. unfold dict_contains. rewrite G1.
  rewrite (dict_del_last String.eqb String.eqb_refl name (KStr name) _ Hm).
  now rewrite (dict_del_last py_eq py_eq_refl (KStr name) v _ Hk).
Qed.

Lemma setattr_then_delattr_witness :
  let w := mkWorld (mkDictObject [(KStr "hello", VInt 42)]
                                 [("hello", KStr "hello")]) [] in
  (__setattr__ "barz" (VStr "x") ;;; __delattr__ "barz")%M w = (Ok tt, w).
Proof.
  intro w.
  apply (setattr_then_delattr "barz" (VStr "x") (VStr "x") w);
    [discriminate|reflexivity|reflexivity|reflexivity].
Defined.

(** ** Merging: what a completed merge leaves behind *)

Lemma for_each_app {A : Type} (body : A -> M unit) (l1 l2 : list A) (w : world) :
  for_each body (l1 ++ l2) w
  = bind (for_each body l1) (fun _ => for_each body l2) w.
Proof.
  revert w. induction l1 as [|x l1 IH]; intro w; [reflexivity|].
  cbn [app for_each]. unfold bind.
  destruct (body x w) as [[u|e|h] w1]; try reflexivity.
  rewrite IH. reflexivity.
Qed.

Lemma for_each_ok {A : Type} (body : A -> M unit) (l : list A) (w w' : world) :
  for_each body l w = (Ok tt, w') ->
  forall x, In x l -> exists w1 w2, body x w1 = (Ok tt, w2).
Proof.
  revert w. induction l as [|y l IH]; intros w H x I; [destruct I|].
  cbn [for_each] in H. unfold bind in H.
  destruct (body y w) as [[[]|e|h] w1] eqn:E; try discriminate.
  destruct I as [<-|I]; eauto.
Qed.

(** One turn of the loop of [merge_dict]. *)
Lemma merge_dict_cons (a : key) (b : value) (rest : list (key * value))
    (w w' : world) :
  merge_dict DictObject_new (VDict ((a, b) :: rest)) w = (Ok tt, w') ->
  exists name wb,
    get_attribute_name_by_key a = Ok name /\
    wrap DictObject_new b = Ok wb /\
    merge_dict DictObject_new (VDict rest)
      (mkWorld (mkDictObject
                  (dict_set py_eq a wb (items (self w)))
                  (dict_set String.eqb name a (_attribute_to_key_map (self w))))
               (stdout w))
    = (Ok tt, w').
Proof.
  destruct w as [[its m] out]. unfold merge_dict. cbn [for_each fst snd].
  unfold _add_to_object_part at 1. unfold bind at 1. run_methods.
  destruct (get_attribute_name_by_key a) as [name|e|h]; try discriminate.
  destruct (wrap DictObject_new b) as [wb|e|h]; try discriminate.
  intro H. exists name, wb. auto.
Qed.

Lemma merge_items_frame (src : list (key * value)) :
  forall w w' k0,
    merge_dict DictObject_new (VDict src) w = (Ok tt, w') ->
    dict_contains py_eq k0 src = false ->
    dict_get py_eq k0 (items (self w')) = dict_get py_eq k0 (items (self w)).
Proof.
  induction src as [|[a b] rest IH]; intros w w' k0 H C.
  - injection H as <-. reflexivity.
  - destruct (merge_dict_cons _ _ _ _ _ H) as (name & wb & _ & _ & Hr).
    rewrite (dict_contains_cons py_eq) in C.
    apply orb_false_elim in C as [E C].
    rewrite (IH _ _ _ Hr C). cbn [self items].
    now apply items_get_set_other.
Qed.

Lemma merge_entries_stored (src : list (key * value)) :
  forall w w',
    dict_distinct py_eq src = true ->
    merge_dict DictObject_new (VDict src) w = (Ok tt, w') ->
    forall a b, In (a, b) src ->
      exists wb, wrap DictObject_new b = Ok wb /\
                 dict_get py_eq a (items (self w')) = Some wb.
Proof.
  induction src as [|[a0 b0] rest IH]; intros w w' D H a b I; [destruct I|].
  cbn [dict_distinct] in D. apply andb_prop in D as [Na D].
  apply negb_true_iff in Na.
  destruct (merge_dict_cons _ _ _ _ _ H) as (name & wb & Hn & Hw & Hr).
  destruct I as [E|I].
  - injection E as <- <-. exists wb. split; [assumption|].
    rewrite (merge_items_frame _ _ _ _ Hr Na). cbn [self items].
    apply items_get_set_same.
  - exact (IH _ _ D Hr a b I).
Qed.

(** X14.  After [merge_dict] completes, every entry of the source is
    found by its key with the wrapped value, the entries of all keys
    that the source does not have are unchanged, and nothing was
    printed.  (The keys of the source are pairwise different, as in
    every dict.) *)
Theorem merge_then_getitem (src : list (key * value)) (w w' : world) :
  dict_distinct py_eq src = true ->
  merge_dict DictObject_new (VDict src) w = (Ok tt, w') ->
  (forall a b, In (a, b) src ->
     exists wb, wrap DictObject_new b = Ok wb /\
                dict_get py_eq a (items (self w')) = Some wb) /\
  (forall k0, dict_contains py_eq k0 src = false ->
     dict_get py_eq k0 (items (self w')) = dict_get py_eq k0 (items (self w))) /\
  stdout w' = stdout w.
Proof.
  intros D H. split; [|split].
  - now apply merge_entries_stored with (w := w).
  - intros k0 C. now apply merge_items_frame with (src := src).
  - pose proof (merge_dict_silent (VDict src) w) as S.
    now rewrite H in S.
Qed.

(** The doctest [b.merge_dict({"best fiction": "Fallout: Equestria"})]
    on [{"best pony": 'Littlepip'}]. *)
Lemma merge_then_getitem_witness :
  let w := mkWorld (mkDictObject [(KStr "best pony", VStr "Littlepip")]
                                 [("best_pony", KStr "best pony")]) [] in
  exists w',
    merge_dict DictObject_new
      (VDict [(KStr "best fiction", VStr "Fallout: Equestria")]) w = (Ok tt, w') /\
    dict_get py_eq (KStr "best fiction") (items (self w'))
    = Some (VStr "Fallout: Equestria") /\
    dict_get py_eq (KStr "best pony") (items (self w')) = Some (VStr "Littlepip").
Proof.
  intro w.
  destruct (merge_dict DictObject_new
              (VDict [(KStr "best fiction", VStr "Fallout: Equestria")]) w)
    as [r w'] eqn:E.
  assert (Hr : r = Ok tt) by (vm_compute in E; congruence). subst r.
  destruct (merge_then_getitem
              [(KStr "best fiction", VStr "Fallout: Equestria")] w w' eq_refl E)
    as (A & F & _).
  exists w'. split; [reflexivity|]. split.
  - destruct (A (KStr "best fiction") (VStr "Fallout: Equestria")
                (or_introl eq_refl)) as (wb & Hw & G).
    injection Hw as <-. exact G.
  - now rewrite (F (KStr "best pony") eq_refl).
Defined.

Lemma merge_map_frame (src : list (key * value)) (n : string) :
  forall w w',
    merge_dict DictObject_new (VDict src) w = (Ok tt, w') ->
    (forall a b, In (a, b) src -> get_attribute_name_by_key a <> Ok n) ->
    dict_get String.eqb n (_attribute_to_key_map (self w'))
    = dict_get String.eqb n (_attribute_to_key_map (self w)).
Proof.
  induction src as [|[a b] rest IH]; intros w w' H N.
  - injection H as <-. reflexivity.
  - destruct (merge_dict_cons _ _ _ _ _ H) as (name & wb & Hn & _ & Hr).
    rewrite (IH _ _ Hr) by (intros a' b' I; apply (N a' b'); now right).
    cbn [self _attribute_to_key_map]. apply map_get_set_other.
    intros ->. exact (N a b (or_introl eq_refl) Hn).
Qed.

(** X15.  After [merge_dict] completes, a derived name belongs to the
    last key of the source that derives it (no suffix is tried), names
    that no key of the source derives keep their registration, and
    reading the name as an attribute returns the wrapped value of that
    last key. *)
Theorem merge_registers_last_key (src1 src2 : list (key * value)) (a : key)
    (b : value) (name : string) (w w' : world) :
  merge_dict DictObject_new (VDict (src1 ++ (a, b) :: src2)) w = (Ok tt, w') ->
  get_attribute_name_by_key a = Ok name ->
  (forall a' b', In (a', b') src2 -> get_attribute_name_by_key a' <> Ok name) ->
  dict_get String.eqb name (_attribute_to_key_map (self w')) = Some a /\
  (forall n,
     (forall a' b', In (a', b') (src1 ++ (a, b) :: src2) ->
                    get_attribute_name_by_key a' <> Ok n) ->
     dict_get String.eqb n (_attribute_to_key_map (self w'))
     = dict_get String.eqb n (_attribute_to_key_map (self w))) /\
  (forall dict_attribute,
     dict_distinct py_eq (src1 ++ (a, b) :: src2) = true ->
     has_normal_attribute dict_attribute name = false ->
     exists wb, wrap DictObject_new b = Ok wb /\
                __getattr__ dict_attribute name w' = (Ok (Item wb), w')).
Proof.
  intros H Hn L.
  assert (R : dict_get String.eqb name (_attribute_to_key_map (self w')) = Some a).
  { revert w H. induction src1 as [|[a1 b1] src1 IH]; intros w H.
    - cbn [app] in H.
      destruct (merge_dict_cons _ _ _ _ _ H) as (name' & wb & Hn' & _ & Hr).
      rewrite Hn in Hn'. injection Hn' as <-.
      rewrite (merge_map_frame _ name _ _ Hr L).
      cbn [self _attribute_to_key_map]. apply map_get_set_same.
    - cbn [app] in H.
      destruct (merge_dict_cons _ _ _ _ _ H) as (name' & wb & _ & _ & Hr).
      exact (IH _ Hr). }
  split; [exact R|]. split.
  - intros n N. now apply (merge_map_frame _ n _ _ H).
  - intros dict_attribute D Hc.
    destruct (merge_entries_stored _ _ _ D H a b) as (wb & Hw & G);
      [apply in_elt|].
    exists wb. split; [assumption|].
    now apply getattr_registered with (k := a).
Qed.

(** Merging [{"1": "a", 1: "b"}]: the name [int_1] goes to the last
    key, [1]. *)
Lemma merge_registers_last_key_witness :
  exists w',
    merge_dict DictObject_new
      (VDict ([(KStr "1", VStr "a")] ++ (KInt 1, VStr "b") :: []))
      (mkWorld blank []) = (Ok tt, w') /\
    dict_get String.eqb "int_1" (_attribute_to_key_map (self w')) = Some (KInt 1) /\
    __getattr__ cpython_dict_attribute "int_1" w' = (Ok (Item (VStr "b")), w').
Proof.
  destruct (merge_dict DictObject_new
              (VDict ([(KStr "1", VStr "a")] ++ (KInt 1, VStr "b") :: []))
              (mkWorld blank [])) as [r w'] eqn:E.
  assert (Hr : r = Ok tt) by (vm_compute in E; congruence). subst r.
  destruct (merge_registers_last_key [(KStr "1", VStr "a")] [] (KInt 1)
              (VStr "b") "int_1" (mkWorld blank []) w' E eq_refl
              ltac:(intros a' b' [])) as (R & _ & G).
  exists w'. split; [reflexivity|]. split; [exact R|].
  destruct (G cpython_dict_attribute eq_refl eq_refl) as (wb & Hw & Ha).
  injection Hw as <-. exact Ha.
Defined.

(** ** Arguments that are not dicts *)

(** X16.  [merge_dict] and [+=] raise [TypeError] on an argument that
    is not a dict and leave the object as it is, and the constructor
    returns no object when one of its positional arguments is not a
    dict. *)
Theorem non_dict_arguments_rejected (x : value) :
  isinstance_dict x = false ->
  (forall w, merge_dict DictObject_new x w = (Raise TypeError, w)) /\
  (forall w, __iadd__ x w = (Raise TypeError, w)) /\
  (forall args kwargs o, In x args -> DictObject_ args kwargs <> Ok o).
Proof.
  intro Hx.
  assert (G : forall w, merge_dict DictObject_new x w = (Raise TypeError, w))
    by (intro w; destruct x; try discriminate; reflexivity).
  split; [exact G|]. split; [exact G|].
  intros args kwargs o I. unfold DictObject_, __init__.
  unfold bind at 1.
  destruct (match args with
            | [x0] => dict___init__ (Some x0) kwargs
            | _ => dict___init__ None kwargs
            end (mkWorld blank [])) as [[u|e|h] w1]; try discriminate.
  unfold bind at 1. cbn [put_map].
  unfold bind at 1.
  match goal with |- context [for_each ?f args ?w0] =>
    destruct (for_each f args w0) as [[[]|e|h] w2] eqn:E; try discriminate
  end.
  destruct (for_each_ok _ _ _ _ E x I) as (wa & wb & C).
  rewrite G in C. discriminate.
Qed.

Lemma non_dict_arguments_rejected_witness :
  merge_dict DictObject_new (VInt 5) (mkWorld blank []) = (Raise TypeError, mkWorld blank [])
  /\ DictObject_ [VDict []; VStr "ab"] [] <> Ok blank.
Proof.
  destruct (non_dict_arguments_rejected (VInt 5) eq_refl) as (A & _ & _).
  destruct (non_dict_arguments_rejected (VStr "ab") eq_refl) as (_ & _ & C).
  split; [apply A|]. apply C. right. now left.
Defined.

(** ** The constructor *)

Lemma dict_update_distinct {K V : Type} (eqb : K -> K -> bool)
    (l acc : list (K * V)) :
  (forall a b, eqb a b = eqb b a) ->
  dict_distinct eqb (acc ++ l) = true -> dict_update eqb l acc = (acc ++ l)%list.
Proof.
  intro Sy. unfold dict_update. revert acc.
  induction l as [|[k v] l IH]; intros acc D; cbn [fold_left].
  - now rewrite app_nil_r.
  - assert (C : dict_contains eqb k acc = false).
    { clear IH. induction acc as [|[k1 v1] acc IHa]; [reflexivity|].
      cbn [app dict_distinct] in D. apply andb_prop in D as [N D].
      apply negb_true_iff in N.
      unfold dict_contains in *. cbn [dict_get].
      destruct (eqb k1 k) eqn:E.
      - exfalso. clear IHa D. induction acc as [|[k2 v2] acc IHb].
        + cbn in N. rewrite Sy, E in N. discriminate.
        + cbn [app dict_get] in N. destruct (eqb k2 k1); [discriminate|auto].
      - auto. }
    cbn [fst snd]. rewrite (dict_set_absent eqb k v acc C).
    rewrite IH; rewrite <- app_assoc; [reflexivity|exact D].
Qed.

Lemma kwargs_contains (s : string) (kwargs : list (string * value)) :
  dict_contains py_eq (KStr s) (map (fun kv => (KStr (fst kv), snd kv)) kwargs)
  = dict_contains String.eqb s kwargs.
Proof.
  unfold dict_contains.
  induction kwargs as [|[s' v'] l IH]; [reflexivity|].
  cbn [map dict_get fst snd py_eq]. now destruct (String.eqb s' s).
Qed.

Lemma kwargs_distinct (kwargs : list (string * value)) :
  dict_distinct String.eqb kwargs = true ->
  dict_distinct py_eq (map (fun kv => (KStr (fst kv), snd kv)) kwargs) = true.
Proof.
  induction kwargs as [|[s v] l IH]; [reflexivity|].
  cbn [map dict_distinct fst snd]. rewrite kwargs_contains.
  intro H. apply andb_prop in H as [N D]. now rewrite N, IH.
Qed.

(** The three stages of [__init__]. *)
Lemma init_inv (args : list value) (kwargs : list (string * value))
    (w w' : world) :
  __init__ DictObject_new args kwargs w = (Ok tt, w') ->
  exists w1 w2,
    match args with
    | [x] => dict___init__ (Some x) kwargs
    | _ => dict___init__ None kwargs
    end w = (Ok tt, w1) /\
    for_each (merge_dict DictObject_new) args
      (mkWorld (mkDictObject (items (self w1)) []) (stdout w1)) = (Ok tt, w2) /\
    merge_dict DictObject_new
      (VDict (dict_update py_eq
                (map (fun kv => (KStr (fst kv), snd kv)) kwargs) [])) w2
    = (Ok tt, w').
Proof.
  unfold __init__. unfold bind at 1.
  destruct (match args with
            | [x] => dict___init__ (Some x) kwargs
            | _ => dict___init__ None kwargs
            end w) as [[[]|e|h] w1]; try discriminate.
  unfold bind at 1. cbn [put_map]. unfold bind at 1.
  match goal with |- context [for_each ?f args ?w0] =>
    destruct (for_each f args w0) as [[[]|e|h] w2] eqn:E; try discriminate
  end.
  intro H. exists w1, w2. auto.
Qed.

(** X17.  Keyword arguments win: in an object that the constructor
    returns, each keyword argument is stored under its name with its
    wrapped value, whatever the positional arguments hold for that
    key. *)
Theorem constructor_keywords_win (args : list value)
    (kwargs : list (string * value)) (o : DictObject) :
  dict_distinct String.eqb kwargs = true ->
  DictObject_ args kwargs = Ok o ->
  forall s v, In (s, v) kwargs ->
    exists wv, wrap DictObject_new v = Ok wv /\
               dict_get py_eq (KStr s) (items o) = Some wv.
Proof.
  intros D H s v I. unfold DictObject_ in H.
  destruct (__init__ DictObject_new args kwargs (mkWorld blank []))
    as [[[]|e|h] w'] eqn:E; try discriminate.
  injection H as <-.
  destruct (init_inv _ _ _ _ E) as (w1 & w2 & _ & _ & Hm).
  pose proof (kwargs_distinct kwargs D) as Dk.
  rewrite (dict_update_distinct py_eq _ [] py_eq_sym Dk) in Hm.
  cbn [app] in Hm.
  apply (merge_entries_stored _ _ _ Dk Hm (KStr s) v).
  apply (in_map (fun kv => (KStr (fst kv), snd kv)) kwargs (s, v) I).
Qed.

(** The doctest [DictObject(c, unos=1)] with a positional dict that
    also has the key [unos]. *)
Lemma constructor_keywords_win_witness :
  exists o,
    DictObject_ [VDict [(KStr "unos", VInt 0); (KStr "one", VInt 1)]]
                [("unos", VInt 1)] = Ok o /\
    dict_get py_eq (KStr "unos") (items o) = Some (VInt 1).
Proof.
  destruct (DictObject_ [VDict [(KStr "unos", VInt 0); (KStr "one", VInt 1)]]
                        [("unos", VInt 1)]) as [o|e|h] eqn:E;
    try (vm_compute in E; discriminate).
  exists o. split; [reflexivity|].
  destruct (constructor_keywords_win _ [("unos", VInt 1)] o eq_refl E
              "unos" (VInt 1) (or_introl eq_refl)) as (wv & Hw & G).
  injection Hw as <-. exact G.
Defined.

Lemma merge_keys_present (src : list (key * value)) :
  forall w w',
    merge_dict DictObject_new (VDict src) w = (Ok tt, w') ->
    (forall a b, In (a, b) src -> dict_contains py_eq a (items (self w)) = true) ->
    map fst (items (self w')) = map fst (items (self w)).
Proof.
  induction src as [|[a b] rest IH]; intros w w' H P.
  - injection H as <-. reflexivity.
  - destruct (merge_dict_cons _ _ _ _ _ H) as (name & wb & _ & _ & Hr).
    rewrite (IH _ _ Hr); cbn [self items].
    + apply dict_set_keys_present. apply (P a b). now left.
    + intros a' b' I.
      rewrite (dict_contains_set py_eq py_eq_sym py_eq_trans).
      rewrite (P a' b') by now right. apply orb_true_r.
Qed.

Lemma merge_map_origin (src : list (key * value)) :
  forall w w' name k,
    merge_dict DictObject_new (VDict src) w = (Ok tt, w') ->
    dict_get String.eqb name (_attribute_to_key_map (self w')) = Some k ->
    dict_get String.eqb name (_attribute_to_key_map (self w)) = Some k
    \/ exists b, In (k, b) src /\ get_attribute_name_by_key k = Ok name.
Proof.
  induction src as [|[a b] rest IH]; intros w w' name k H G.
  - injection H as <-. now left.
  - destruct (merge_dict_cons _ _ _ _ _ H) as (name0 & wb & Hn & _ & Hr).
    destruct (IH _ _ _ _ Hr G) as [G1|(b' & I & Hk)].
    + cbn [self _attribute_to_key_map] in G1.
      destruct (String.eqb_spec name0 name) as [->|N].
      * rewrite map_get_set_same in G1. injection G1 as <-.
        right. exists b. split; [now left|assumption].
      * rewrite map_get_set_other in G1 by assumption. now left.
    + right. exists b'. split; [now right|assumption].
Qed.

Lemma dict_distinct_contains_In (d : list (key * value)) (a : key) (b : value) :
  In (a, b) d -> dict_contains py_eq a d = true.
Proof.
  induction d as [|[k v] d IH]; [intros []|].
  rewrite (dict_contains_cons py_eq). intros [E|I].
  - injection E as -> ->. now rewrite py_eq_refl.
  - rewrite (IH I). apply orb_true_r.
Qed.

(** The constructor call on a nested value is the public constructor
    on one positional argument. *)
Lemma DictObject_new_constructor (x : value) :
  DictObject_new x = rbind (DictObject_ [x] []) (fun o => Ok (obj_value o)).
Proof.
  unfold DictObject_.
  destruct x; cbn [DictObject_new];
    match goal with |- context [__init__ ?f ?a ?k ?w] =>
      destruct (__init__ f a k w) as [[[]|e|h] w']
    end; reflexivity.
Qed.

(** The object that the constructor makes from one dict. *)
Lemma DictObject_from_dict (d : list (key * value)) (o : DictObject) :
  dict_distinct py_eq d = true ->
  DictObject_ [VDict d] [] = Ok o ->
  map fst (items o) = map fst d /\
  (forall a b, In (a, b) d ->
     exists wb, wrap DictObject_new b = Ok wb /\
                dict_get py_eq a (items o) = Some wb) /\
  (forall name k, dict_get String.eqb name (_attribute_to_key_map o) = Some k ->
     exists b, In (k, b) d /\ get_attribute_name_by_key k = Ok name).
Proof.
  intros D H. unfold DictObject_ in H.
  destruct (__init__ DictObject_new [VDict d] [] (mkWorld blank []))
    as [[[]|e|h] w'] eqn:E; try discriminate.
  injection H as <-.
  destruct (init_inv _ _ _ _ E) as (w1 & w2 & H1 & H2 & H3).
  assert (U : dict_update py_eq d [] = d)
    by exact (dict_update_distinct py_eq d [] py_eq_sym D).
  assert (E1 : w1 = mkWorld (mkDictObject d []) []).
  { revert H1. unfold dict___init__. run_methods. cbn [for_each blank].
    rewrite U. intro H1. now injection H1 as <-. }
  subst w1. cbn [self items stdout] in H2.
  cbn [map dict_update fold_left] in H3. injection H3 as <-.
  cbn [for_each] in H2. unfold bind in H2.
  destruct (merge_dict DictObject_new (VDict d)
              (mkWorld (mkDictObject d []) [])) as [[[]|e|h] w3] eqn:Hm;
    try discriminate.
  injection H2 as <-.
  split; [|split].
  - rewrite (merge_keys_present _ _ _ Hm); [reflexivity|].
    intros a b I. cbn [self items]. now apply (dict_distinct_contains_In d a b).
  - exact (merge_entries_stored _ _ _ D Hm).
  - intros name k G.
    destruct (merge_map_origin _ _ _ _ _ Hm G) as [G0|R]; [discriminate|exact R].
Qed.

(** X18.  [DictObject(d)] on a dict [d]: the object has the keys of
    [d] in the order of [d], each with the wrapped value of [d], and
    its map registers nothing but keys of [d], each under its derived
    name.  It is the object that [_add_to_object_part] stores for [d]
    as a nested value. *)
Theorem constructor_from_dict (d : list (key * value)) (o : DictObject) :
  dict_distinct py_eq d = true ->
  DictObject_ [VDict d] [] = Ok o ->
  map fst (items o) = map fst d /\
  (forall a b, In (a, b) d ->
     exists wb, wrap DictObject_new b = Ok wb /\
                dict_get py_eq a (items o) = Some wb) /\
  (forall name k, dict_get String.eqb name (_attribute_to_key_map o) = Some k ->
     exists b, In (k, b) d /\ get_attribute_name_by_key k = Ok name) /\
  wrap DictObject_new (VDict d)
  = Ok (VObj (items o) (_attribute_to_key_map o)).
Proof.
  intros D H.
  destruct (DictObject_from_dict d o D H) as (K & A & R).
  repeat (split; [assumption|]).
  cbn [wrap]. rewrite DictObject_new_constructor, H. reflexivity.
Qed.

(** The doctest dict [{"1": ..., "foo-:-bar": ...}]. *)
Lemma constructor_from_dict_witness :
  exists o,
    DictObject_ [VDict [(KStr "1", VStr "x"); (KStr "foo-:-bar", VStr "y")]] []
    = Ok o /\
    map fst (items o) = [KStr "1"; KStr "foo-:-bar"] /\
    dict_get py_eq (KStr "foo-:-bar") (items o) = Some (VStr "y").
Proof.
  destruct (DictObject_
              [VDict [(KStr "1", VStr "x"); (KStr "foo-:-bar", VStr "y")]] [])
    as [o|e|h] eqn:E; try (vm_compute in E; discriminate).
  destruct (constructor_from_dict
              [(KStr "1", VStr "x"); (KStr "foo-:-bar", VStr "y")] o eq_refl E)
    as (K & A & _).
  exists o. split; [reflexivity|]. split; [exact K|].
  destruct (A (KStr "foo-:-bar") (VStr "y") (or_intror (or_introl eq_refl)))
    as (wb & Hw & G).
  injection Hw as <-. exact G.
Defined.

(** ** Names that [__setitem__] registers *)

Lemma candidate_is_identifier (name : string) (N : Z) :
  is_identifier name = true -> (0 <= N)%Z ->
  is_identifier (candidate name N) = true.
Proof.
  intros I HN. unfold candidate. apply is_identifier_app; [assumption|].
  change ("_" ++ str_int N) with (String "_" (str_int N)).
  cbn [string_forall].
  rewrite (string_forall_impl isdigit is_word _ isdigit_is_word
             (str_int_digits N HN)).
  reflexivity.
Qed.

(** X19.  Every name that [__setitem__] registers, suffixed or not,
    is shaped like an identifier: not empty, no leading digit in the
    sense of [str.isdigit], only characters matched by [\w]. *)
Theorem setitem_registers_identifier (fuel : nat) (k : key) (v : value)
    (w w' : world) :
  __setitem__ fuel k v w = (Ok tt, w') ->
  exists u,
    resolved_name fuel (_attribute_to_key_map (self w)) k = Ok u /\
    dict_get String.eqb u (_attribute_to_key_map (self w')) = Some k /\
    is_identifier u = true.
Proof.
  intro H.
  destruct (setitem_inv _ _ _ _ _ H) as (name & u & wv & Hn & Hu & Hw).
  rewrite (setitem_run fuel k v w name u wv Hn Hu Hw) in H.
  injection H as <-. exists u. split; [assumption|].
  split; [apply map_get_set_same|].
  pose proof (derived_name_shape k name Hn) as I.
  unfold resolved_name in Hu. rewrite Hn in Hu. cbn [rbind] in Hu.
  destruct (dict_get String.eqb name (_attribute_to_key_map (self w)))
    as [holder|]; [|now injection Hu as <-].
  destruct (negb (py_eq holder k)); [|now injection Hu as <-].
  destruct (next_free_is_candidate _ _ _ _ _ _ Hu) as (N & B & -> & _).
  apply candidate_is_identifier; [assumption|lia].
Qed.

Lemma setitem_registers_identifier_witness :
  is_identifier "foo_bar_1" = true.
Proof.
  destruct (setitem_registers_identifier 2 (KStr "foo...bar") (VInt 2)
              (mkWorld (mkDictObject [(KStr "foo-:-bar", VInt 1)]
                                     [("foo_bar", KStr "foo-:-bar")]) [])
              _ eq_refl) as (u & Hu & _ & I).
  vm_compute in Hu. injection Hu as <-. exact I.
Defined.

(** ** Wrapping of values *)

Lemma map_result_forall2 {A B : Type} (f : A -> result B) (l : list A)
    (ys : list B) :
  map_result f l = Ok ys -> Forall2 (fun x y => f x = Ok y) l ys.
Proof.
  revert ys. induction l as [|a l IH]; intros ys H.
  - injection H as <-. constructor.
  - cbn [map_result rbind] in H.
    destruct (f a) as [y| |] eqn:Fa; try discriminate. cbn [rbind] in H.
    destruct (map_result f l) as [ys'| |]; try discriminate.
    cbn [rbind] in H. injection H as <-. constructor; auto.
Qed.

(** X20.  A list or tuple that [_add_to_object_part] accepts is stored
    as a sequence of the same kind and length; none of its elements is
    a list or a tuple, an element that is a dict is replaced by the
    [DictObject] made from it, and every other element is kept as it
    is. *)
Theorem wrap_sequence_structure (xs : list value) (o : value) :
  (wrap DictObject_new (VList xs) = Ok o \/
   wrap DictObject_new (VTuple xs) = Ok o) ->
  exists ys,
    (wrap DictObject_new (VList xs) = Ok o -> o = VList ys) /\
    (wrap DictObject_new (VTuple xs) = Ok o -> o = VTuple ys) /\
    List.length ys = List.length xs /\
    Forall2 (fun x y =>
               isinstance_list_tuple x = false /\
               if isinstance_dict x then DictObject_new x = Ok y else y = x)
            xs ys.
Proof.
  intro H.
  assert (G : exists ys, map_result (wrap_element DictObject_new) xs = Ok ys).
  { destruct H as [H|H]; cbn [wrap] in H;
      destruct (map_result (wrap_element DictObject_new) xs) as [ys| |];
      try discriminate; eauto. }
  destruct G as (ys & G). exists ys.
  split; [|split; [|split]].
  - cbn [wrap]. rewrite G. cbn [rbind]. congruence.
  - cbn [wrap]. rewrite G. cbn [rbind]. congruence.
  - apply map_result_forall2 in G. symmetry.
    exact (Forall2_length G).
  - apply map_result_forall2 in G.
    eapply Forall2_impl; [|exact G].
    intros x y Hxy. cbv beta in Hxy. unfold wrap_element in Hxy.
    destruct (isinstance_list_tuple x) eqn:L.
    + rewrite orb_true_r in Hxy.
      now apply (DictObject_new_sequence x y) in Hxy.
    + rewrite orb_false_r in Hxy. split; [reflexivity|].
      destruct (isinstance_dict x); [assumption|congruence].
Qed.

Lemma wrap_sequence_structure_witness :
  wrap DictObject_new (VTuple [VInt 1; VDict []]) = Ok (VTuple [VInt 1; VObj [] []]).
Proof.
  destruct (wrap DictObject_new (VTuple [VInt 1; VDict []])) as [o|e|h] eqn:E;
    try (vm_compute in E; discriminate).
  destruct (wrap_sequence_structure _ o (or_intror E)) as (ys & _ & T & _).
  pose proof (T E) as Ho. vm_compute in E. injection E as <-. reflexivity.
Defined.

(** ** What [in] answers *)

(** X21.  [k in b] never changes the object and answers exactly this:
    true when [k] is a key of the store, or a string that is an
    attribute of the class, or a string registered to a key of the
    store, or any string at all while the map is empty; false
    otherwise, in particular for every unhashable value and for every
    value that is neither a key nor a string. *)
Theorem contains_characterised (dict_attribute : string -> bool) (k : value)
    (w : world) :
  exists w',
    __contains__ dict_attribute k w
    = (Ok (contained dict_attribute (self w) k), w') /\
    self w' = self w.
Proof.
  destruct w as [[its m] out].
  unfold __contains__, contains_attempt, dict___contains__, hasattr, contained.
  cbn [self items _attribute_to_key_map].
  destruct (to_key k) as [k'|] eqn:Ek.
  - run_methods. destruct (dict_contains py_eq k' its) eqn:C.
    + eexists. split; reflexivity.
    + cbn [orb].
      destruct k; try (eexists; split; reflexivity).
      unfold __getattr__.
      destruct (has_normal_attribute dict_attribute s);
        [eexists; split; reflexivity|].
      run_methods. cbn [orb].
      destruct m as [|e m]; [eexists; split; reflexivity|].
      destruct (dict_get String.eqb s (e :: m)) as [key_name|];
        [|eexists; split; reflexivity].
      unfold dict_contains.
      destruct (dict_get py_eq key_name its); eexists; split; reflexivity.
  - destruct k; try discriminate; run_methods;
      try (eexists; split; reflexivity).
    destruct (hashable (VTuple xs)); eexists; split; reflexivity.
Qed.

(** On an object built with [ponies='are pretty!'], ['foo' in b] is
    false and ['keys' in b] is true. *)
Lemma contains_characterised_witness :
  let w := mkWorld (mkDictObject [(KStr "ponies", VStr "are pretty!")]
                                 [("ponies", KStr "ponies")]) [] in
  __contains__ cpython_dict_attribute (VStr "foo") w = (Ok false, w) /\
  __contains__ cpython_dict_attribute (VStr "keys") w = (Ok true, w).
Proof.
  intro w.
  destruct (contains_characterised cpython_dict_attribute (VStr "foo") w)
    as (w1 & E1 & _).
  destruct (contains_characterised cpython_dict_attribute (VStr "keys") w)
    as (w2 & E2 & _).
  split.
  - rewrite E1. vm_compute in E1. now injection E1 as <-.
  - rewrite E2. vm_compute in E2. now injection E2 as <-.
Defined.

(** ** Merging without collisions *)

Lemma map_contains_set (name n : string) (k : key) (m : list (string * key)) :
  dict_contains String.eqb n (dict_set String.eqb name k m)
  = String.eqb name n || dict_contains String.eqb n m.
Proof.
  apply dict_contains_set.
  - apply String.eqb_sym.
  - intros a b c. rewrite !String.eqb_eq. congruence.
Qed.

Lemma merge_dict_step (a : key) (b : value) (rest : list (key * value))
    (w : world) :
  merge_dict DictObject_new (VDict ((a, b) :: rest)) w
  = bind (merge_dict DictObject_new (VDict [(a, b)]))
         (fun _ => merge_dict DictObject_new (VDict rest)) w.
Proof.
  unfold merge_dict.
  change ((a, b) :: rest) with ([(a, b)] ++ rest)%list.
  apply for_each_app.
Qed.

(** X22.  When the keys of the source derive pairwise different names
    and none of these names is registered yet, [merge_dict] does what
    setting the entries one after the other with [__setitem__] does:
    the same result, the same object and the same (empty) output. *)
Theorem merge_without_collisions (fuel : nat) (src : list (key * value)) :
  forall (names : list string) (w : world),
    map_result get_attribute_name_by_key (map fst src) = Ok names ->
    NoDup names ->
    (forall n, In n names ->
       dict_contains String.eqb n (_attribute_to_key_map (self w)) = false) ->
    merge_dict DictObject_new (VDict src) w
    = for_each (fun ab => __setitem__ fuel (fst ab) (snd ab)) src w.
Proof.
  induction src as [|[a b] rest IH]; intros names w Hn ND Free;
    [reflexivity|].
  cbn [map fst map_result] in Hn.
  destruct (get_attribute_name_by_key a) as [name| |] eqn:Ha;
    try discriminate.
  cbn [rbind] in Hn.
  destruct (map_result get_attribute_name_by_key (map fst rest))
    as [names'| |] eqn:Hr; try discriminate.
  cbn [rbind] in Hn. injection Hn as <-.
  apply NoDup_cons_iff in ND as [Nin ND].
  assert (T : taken_by_other (_attribute_to_key_map (self w)) name a = false).
  { unfold taken_by_other. specialize (Free name (or_introl eq_refl)).
    unfold dict_contains in Free.
    now destruct (dict_get String.eqb name (_attribute_to_key_map (self w))). }
  pose proof (merge_entry_without_collision fuel a b w name Ha T) as S.
  rewrite (merge_dict_step a b rest w).
  change (for_each (fun ab => __setitem__ fuel (fst ab) (snd ab))
            ((a, b) :: rest) w)
    with (bind (__setitem__ fuel a b)
            (fun _ => for_each (fun ab => __setitem__ fuel (fst ab) (snd ab))
                        rest) w).
  unfold bind. rewrite S.
  destruct (__setitem__ fuel a b w) as [[[]|e|h] w1] eqn:E; try reflexivity.
  apply (IH names'); [reflexivity|assumption|].
  intros n I.
  destruct (setitem_inv _ _ _ _ _ E) as (name' & u & wv & Hn' & Hu & Hw).
  rewrite Ha in Hn'. injection Hn' as <-.
  assert (Eu : u = name).
  { unfold resolved_name in Hu. rewrite Ha in Hu. cbn [rbind] in Hu.
    unfold taken_by_other in T.
    destruct (dict_get String.eqb name (_attribute_to_key_map (self w)));
      [rewrite T in Hu|]; congruence. }
  subst u.
  rewrite (setitem_run fuel a b w name name wv Ha Hu Hw) in E.
  injection E as <-. cbn [self _attribute_to_key_map].
  rewrite map_contains_set, (Free n (or_intror I)).
  assert (N : name <> n) by (intros ->; contradiction).
  apply String.eqb_neq in N. now rewrite N.
Qed.

(** The doctest [DictObject({"one": 1, "two": 2})], as a merge into the
    empty object. *)
Lemma merge_without_collisions_witness :
  merge_dict DictObject_new
    (VDict [(KStr "one", VInt 1); (KStr "two", VInt 2)]) (mkWorld blank [])
  = (Ok tt,
     mkWorld (mkDictObject [(KStr "one", VInt 1); (KStr "two", VInt 2)]
                           [("one", KStr "one"); ("two", KStr "two")]) []).
Proof.
  rewrite (merge_without_collisions 1
             [(KStr "one", VInt 1); (KStr "two", VInt 2)] ["one"; "two"]
             (mkWorld blank []) eq_refl).
  - reflexivity.
  - repeat constructor; cbn; intuition discriminate.
  - intros n _. reflexivity.
Defined.
